(** * bq25570_calc: resistor divider optimizer for the TI bq25570

    A shallow embedding of [src/bq25570_calc.py] and the proofs of its
    specification.

    Numbers.  The program computes with Python [float]s.  Here a float is
    an exact rational ([Q]): the decimal literals of the source are the
    rationals they denote, [+ - * /] are the field operations, and the
    comparisons are the order of [Q] (so [==] is [Qeq]).  Binary64 rounding,
    overflow, infinities and NaN are outside this model.  What Python does
    on a zero divisor is inside it: [x / 0.0] raises [ZeroDivisionError],
    so every function that divides returns an [option], [None] standing for
    the raised exception.

    Integers ([int]: the decade exponents and the result limit) are [Z].

    Scope.  [ESeries], [Calculator], [WorstCase], [DatasheetLimits] and
    [Optimizer] are modelled whole.  Of [Formatter] the model keeps the
    numbers each printed row shows, not their rendering as text
    ([Formatter.ohm] and the format specifications); of [CLI] it keeps
    [run] from the parsed arguments on, not the construction of the
    parser. *)

From Stdlib Require Import QArith Qabs Qpower Lqa ZArith Lia Bool List.
From Stdlib Require Import Ascii String Sorted Permutation.
Import ListNotations.

Open Scope Q_scope.

(** ** Python building blocks *)

Module Py.

(** The float comparisons [x < y] and [x > y]; [<=] is [Qle_bool] and [==]
    is [Qeq_bool]. *)
Definition ltb (x y : Q) : bool := negb (Qle_bool y x).
Definition gtb (x y : Q) : bool := ltb y x.

(** [x / y] on floats. *)
Definition truediv (x y : Q) : option Q :=
  if Qeq_bool y 0 then None else Some (x / y).

(** [(a0, a1) < (b0, b1)] on tuples of floats: the first position where
    the tuples differ (by [==]) decides. *)
Definition tuple_ltb (a b : Q * Q) : bool :=
  if Qeq_bool (fst a) (fst b) then ltb (snd a) (snd b) else ltb (fst a) (fst b).

(** [range(lo, hi)] *)
Definition range (lo hi : Z) : list Z :=
  map (fun i => (lo + Z.of_nat i)%Z) (seq 0 (Z.to_nat (hi - lo))).

(** [l[:n]], with Python's reading of a negative bound: counted from the
    end of the list. *)
Definition slice_to {A : Type} (l : list A) (n : Z) : list A :=
  if (n <? 0)%Z
  then firstn (Z.to_nat (Z.max 0 (Z.of_nat (List.length l) + n))) l
  else firstn (Z.to_nat n) l.

(** [sorted] and [list.sort] are stable and compare with [<] only.  A
    stable sort has one possible result, so insertion sort stands for it:
    an element goes in front of the first element that is not strictly
    smaller, hence in front of its equals that came later in the input. *)
Section Sort.
Context {A : Type} (lt : A -> A -> bool).

Fixpoint insert (x : A) (l : list A) : list A :=
  match l with
  | [] => [x]
  | y :: l' => if lt y x then y :: insert x l' else x :: y :: l'
  end.

Fixpoint sorted (l : list A) : list A :=
  match l with
  | [] => []
  | x :: l' => insert x (sorted l')
  end.
End Sort.

(** [str.upper] on the ASCII letters. *)
Definition upper_ascii (c : ascii) : ascii :=
  let n := nat_of_ascii c in
  if (97 <=? n)%nat && (n <=? 122)%nat then ascii_of_nat (n - 32) else c.

Fixpoint upper (s : string) : string :=
  match s with
  | EmptyString => EmptyString
  | String c s' => String (upper_ascii c) (upper s')
  end.

(** A [for] loop over a list whose body updates the loop state and may
    raise: the first exception ends the loop. *)
Fixpoint for_each {A S : Type} (l : list A) (body : S -> A -> option S)
    (s : S) : option S :=
  match l with
  | [] => Some s
  | x :: l' =>
      match body s x with
      | Some s' => for_each l' body s'
      | None => None
      end
  end.

End Py.

Notation "x <- c1 ;; c2" :=
  (match c1 with Some x => c2 | None => None end)
  (at level 61, c1 at next level, right associativity).
Notation "' pat <- c1 ;; c2" :=
  (match c1 with Some pat => c2 | None => None end)
  (at level 61, pat pattern, c1 at next level, right associativity).

(** ** Module constants *)

Definition VBIAS_TYP : Q := 1.21.
Definition VBIAS_MIN : Q := 1.205.
Definition VBIAS_MAX : Q := 1.217.

Definition DEFAULT_RSUM_MAX : Q := 13e6.

Definition E24_BASE : list Q := [
    1.0; 1.1; 1.2; 1.3; 1.5; 1.6; 1.8; 2.0; 2.2; 2.4; 2.7; 3.0;
    3.3; 3.6; 3.9; 4.3; 4.7; 5.1; 5.6; 6.2; 6.8; 7.5; 8.2; 9.1
].

Definition E96_BASE : list Q := [
    1.00; 1.02; 1.05; 1.07; 1.10; 1.13; 1.15; 1.18; 1.21; 1.24; 1.27; 1.30; 1.33; 1.37; 1.40; 1.43;
    1.47; 1.50; 1.54; 1.58; 1.62; 1.65; 1.69; 1.74; 1.78; 1.82; 1.87; 1.91; 1.96; 2.00; 2.05; 2.10;
    2.15; 2.21; 2.26; 2.32; 2.37; 2.43; 2.49; 2.55; 2.61; 2.67; 2.74; 2.80; 2.87; 2.94; 3.01; 3.09;
    3.16; 3.24; 3.32; 3.40; 3.48; 3.57; 3.65; 3.74; 3.83; 3.92; 4.02; 4.12; 4.22; 4.32; 4.42; 4.53;
    4.64; 4.75; 4.87; 4.99; 5.11; 5.23; 5.36; 5.49; 5.62; 5.76; 5.90; 6.04; 6.19; 6.34; 6.49; 6.65;
    6.81; 6.98; 7.15; 7.32; 7.50; 7.68; 7.87; 8.06; 8.25; 8.45; 8.66; 8.87; 9.09; 9.31; 9.53; 9.76
].

(** ** Candidate records *)

Module TwoResCandidate.
Record t : Type := mk {
  error : Q;
  v_nom : Q;
  r1 : Q;
  r2 : Q;
  rsum : Q
}.
End TwoResCandidate.

Module ThreeResCandidate.
Record t : Type := mk {
  error : Q;
  v_prog : Q;
  v_hyst : Q;
  r1 : Q;
  r2 : Q;
  r3 : Q;
  rsum : Q
}.
End ThreeResCandidate.

(** ** class ESeries *)

Module ESeries.

Record t : Type := mk {
  name : string;
  decade_min : Z;
  decade_max : Z
}.

(** [__init__]: the name is stored in upper case. *)
Definition init (name : string) (decade_min decade_max : Z) : t :=
  mk (Py.upper name) decade_min decade_max.

(** [10 ** d]: an [int] for [0 <= d], the float [10.0 ** d] below. *)
Definition pow10 (d : Z) : Q := inject_Z 10 ^ d.

Definition values (self : t) : list Q :=
  let base := if String.eqb (name self) "E24" then E24_BASE else E96_BASE in
  let vals :=
    fold_left
      (fun vals d =>
         let factor := pow10 d in
         vals ++ map (fun b => b * factor) base)
      (Py.range (decade_min self) (decade_max self + 1)) [] in
  Py.sorted Py.ltb vals.

End ESeries.

(** ** class Calculator *)

Module Calculator.

(** R1 = bottom, R2 = top *)
Definition vout (r1 r2 vbias : Q) : option Q :=
  q <- Py.truediv r2 r1 ;;
  Some (vbias * (1.0 + q)).

(** 3/2 scaling factor per OV comparator *)
Definition vbat_ov (r1 r2 vbias : Q) : option Q :=
  q <- Py.truediv r2 r1 ;;
  Some (1.5 * vbias * (1.0 + q)).

Definition vbat_ok_prog (r1 r2 vbias : Q) : option Q :=
  q <- Py.truediv r2 r1 ;;
  Some (vbias * (1.0 + q)).

Definition vbat_ok_hyst (r1 r2 r3 vbias : Q) : option Q :=
  q <- Py.truediv (r2 + r3) r1 ;;
  Some (vbias * (1.0 + q)).

End Calculator.

(** A transfer function handed around as [vfunc].  The source calls it
    with two arguments where it wants the nominal bias: every function of
    [Calculator] has [vbias = VBIAS_TYP] as its default, so that call is
    the three-argument call at [VBIAS_TYP]. *)
Definition vfunc_t : Type := Q -> Q -> Q -> option Q.

(** ** class WorstCase *)

Module WorstCase.

Definition two_res_bounds (vfunc : vfunc_t) (r1 r2 tol : Q) (vbounds : Q * Q)
    : option (Q * Q) :=
  let '(r1_min, r1_max) := (r1 * (1 - tol), r1 * (1 + tol)) in
  let '(r2_min, r2_max) := (r2 * (1 - tol), r2 * (1 + tol)) in
  v_min <- vfunc r1_max r2_min (fst vbounds) ;;
  v_max <- vfunc r1_min r2_max (snd vbounds) ;;
  Some (v_min, v_max).

Definition ok_bounds (r1 r2 r3 tol : Q) (vbounds : Q * Q)
    : option ((Q * Q) * (Q * Q)) :=
  (* PROG bounds *)
  vp_min <- Calculator.vbat_ok_prog (r1 * (1 + tol)) (r2 * (1 - tol)) (fst vbounds) ;;
  vp_max <- Calculator.vbat_ok_prog (r1 * (1 - tol)) (r2 * (1 + tol)) (snd vbounds) ;;
  (* HYST bounds *)
  vh_min <- Calculator.vbat_ok_hyst
              (r1 * (1 + tol)) (r2 * (1 - tol)) (r3 * (1 - tol)) (fst vbounds) ;;
  vh_max <- Calculator.vbat_ok_hyst
              (r1 * (1 - tol)) (r2 * (1 + tol)) (r3 * (1 + tol)) (snd vbounds) ;;
  Some ((vp_min, vp_max), (vh_min, vh_max)).

End WorstCase.

(** ** class DatasheetLimits *)

Module DatasheetLimits.

Record t : Type := mk {
  vbat_uv : Q;
  vbat_ov_target : option Q
}.

Definition allow_vout_target (self : t) (v : Q) : bool :=
  Qle_bool 2.0 v && Qle_bool v 5.5.

Definition allow_vbat_ov_target (self : t) (v : Q) : bool :=
  Qle_bool 2.0 v && Qle_bool v 5.5.

Definition ok_relationships (self : t) (v_prog v_hyst : Q) : bool :=
  if Py.ltb v_prog (vbat_uv self) then false
  else if Py.ltb v_hyst v_prog then false
  else if match vbat_ov_target self with
          | Some ov => Py.gtb v_hyst ov
          | None => false
          end then false
  else true.

End DatasheetLimits.

(** ** class Optimizer *)

Module Optimizer.

Record t : Type := mk {
  series : ESeries.t;
  rsum_max : Q;
  limit : Z;
  limits : DatasheetLimits.t;
  pool : list Q
}.

Definition init (series : ESeries.t) (rsum_max : Q) (limit : Z)
    (limits : DatasheetLimits.t) : t :=
  mk series rsum_max limit limits (ESeries.values series).

(** The key of [cands.sort(key=lambda x: (x.error, x.rsum))], as the
    comparison the sort makes between two records. *)
Definition two_key_ltb (x y : TwoResCandidate.t) : bool :=
  Py.tuple_ltb (TwoResCandidate.error x, TwoResCandidate.rsum x)
               (TwoResCandidate.error y, TwoResCandidate.rsum y).

Definition three_key_ltb (x y : ThreeResCandidate.t) : bool :=
  Py.tuple_ltb (ThreeResCandidate.error x, ThreeResCandidate.rsum x)
               (ThreeResCandidate.error y, ThreeResCandidate.rsum y).

(** The body of the inner loop of [search_two]: [Some cands] unchanged is
    a [continue]. *)
Definition two_body (self : t) (target : Q) (vfunc : vfunc_t)
    (never_exceed : option Q) (tol_for_ne : Q)
    (r1 : Q) (cands : list TwoResCandidate.t) (r2 : Q)
    : option (list TwoResCandidate.t) :=
  let s := r1 + r2 in
  if Py.gtb s (rsum_max self) then Some cands
  else
    v <- vfunc r1 r2 VBIAS_TYP ;;
    match never_exceed with
    | Some ne =>
        '(vmin, vmax) <- WorstCase.two_res_bounds
                           vfunc r1 r2 tol_for_ne (VBIAS_MIN, VBIAS_MAX) ;;
        if Py.gtb vmax (ne + 1e-12) then Some cands
        else Some (cands ++ [TwoResCandidate.mk (Qabs (v - target)) v r1 r2 s])
    | None =>
        Some (cands ++ [TwoResCandidate.mk (Qabs (v - target)) v r1 r2 s])
    end.

(** The two nested loops of [search_two]: the candidates in the order they
    are appended, before the sort and the truncation. *)
Definition two_candidates (self : t) (target : Q) (vfunc : vfunc_t)
    (never_exceed : option Q) (tol_for_ne : Q)
    : option (list TwoResCandidate.t) :=
  Py.for_each (pool self)
    (fun cands r1 =>
       Py.for_each (pool self)
         (two_body self target vfunc never_exceed tol_for_ne r1) cands)
    [].

Definition search_two (self : t) (target : Q) (vfunc : vfunc_t)
    (never_exceed : option Q) (tol_for_ne : Q)
    (target_checker : option (Q -> bool))
    : option (list TwoResCandidate.t) :=
  if match target_checker with
     | Some checker => negb (checker target)
     | None => false
     end
  then Some []
  else
    cands <- two_candidates self target vfunc never_exceed tol_for_ne ;;
    Some (Py.slice_to (Py.sorted two_key_ltb cands) (limit self)).

(** The body of the innermost loop of [search_ok]. *)
Definition ok_body (self : t) (target_prog target_hyst : option Q)
    (r1 r2 vp : Q) (cands : list ThreeResCandidate.t) (r3 : Q)
    : option (list ThreeResCandidate.t) :=
  let s := r1 + r2 + r3 in
  if Py.gtb s (rsum_max self) then Some cands
  else
    vh <- Calculator.vbat_ok_hyst r1 r2 r3 VBIAS_TYP ;;
    if negb (DatasheetLimits.ok_relationships (limits self) vp vh)
    then Some cands
    else
      match target_prog, target_hyst with
      | Some tp, Some th =>
          let err := Qabs (vp - tp) + Qabs (vh - th) in
          Some (cands ++ [ThreeResCandidate.mk err vp vh r1 r2 r3 s])
      | Some tp, None =>
          let err := Qabs (vp - tp) in
          Some (cands ++ [ThreeResCandidate.mk err vp vh r1 r2 r3 s])
      | None, Some th =>
          let err := Qabs (vh - th) in
          Some (cands ++ [ThreeResCandidate.mk err vp vh r1 r2 r3 s])
      | None, None => Some cands
      end.

(** The three nested loops of [search_ok], before the sort and the
    truncation. *)
Definition ok_candidates (self : t) (target_prog target_hyst : option Q)
    : option (list ThreeResCandidate.t) :=
  Py.for_each (pool self)
    (fun cands r1 =>
       Py.for_each (pool self)
         (fun cands r2 =>
            vp <- Calculator.vbat_ok_prog r1 r2 VBIAS_TYP ;;
            Py.for_each (pool self)
              (ok_body self target_prog target_hyst r1 r2 vp) cands)
         cands)
    [].

Definition search_ok (self : t) (target_prog target_hyst : option Q)
    : option (list ThreeResCandidate.t) :=
  cands <- ok_candidates self target_prog target_hyst ;;
  Some (Py.slice_to (Py.sorted three_key_ltb cands) (limit self)).

End Optimizer.

(** ** class Formatter

    The two print functions, as the rows they print: an entry per printed
    row with the numbers the row shows.  The title, the header lines and
    the rendering of the numbers as text ([Formatter.ohm], the format
    specifications) are not part of the model, and an exception ends the
    program: what was printed before it is not kept. *)

Module Formatter.

(** A row of a two-resistor section: the candidate and its intervals at
    the given tolerance and at 10%. *)
Record two_line : Type := mk_two {
  two_row : TwoResCandidate.t;
  two_tol : Q * Q;
  two_10 : Q * Q
}.

(** A row of the VBAT_OK section: the candidate and, at 1% and at 10%, the
    intervals of the programmed and of the hysteresis threshold. *)
Record ok_line : Type := mk_ok {
  ok_row : ThreeResCandidate.t;
  ok_1 : (Q * Q) * (Q * Q);
  ok_10 : (Q * Q) * (Q * Q)
}.

Definition print_two_section (rows : list TwoResCandidate.t) (vfunc : vfunc_t)
    (tol : Q) : option (list two_line) :=
  Py.for_each rows
    (fun out row =>
       '(m1, M1) <- WorstCase.two_res_bounds
                      vfunc (TwoResCandidate.r1 row) (TwoResCandidate.r2 row) tol
                      (VBIAS_MIN, VBIAS_MAX) ;;
       '(m10, M10) <- WorstCase.two_res_bounds
                        vfunc (TwoResCandidate.r1 row) (TwoResCandidate.r2 row)
                        0.10 (VBIAS_MIN, VBIAS_MAX) ;;
       Some (out ++ [mk_two row (m1, M1) (m10, M10)]))
    [].

(** [tol] is a parameter of the source function that its body does not
    use. *)
Definition print_ok_section (rows : list ThreeResCandidate.t) (tol : Q)
    : option (list ok_line) :=
  Py.for_each rows
    (fun out row =>
       b1 <- WorstCase.ok_bounds
               (ThreeResCandidate.r1 row) (ThreeResCandidate.r2 row)
               (ThreeResCandidate.r3 row) 0.01 (VBIAS_MIN, VBIAS_MAX) ;;
       b10 <- WorstCase.ok_bounds
                (ThreeResCandidate.r1 row) (ThreeResCandidate.r2 row)
                (ThreeResCandidate.r3 row) 0.10 (VBIAS_MIN, VBIAS_MAX) ;;
       Some (out ++ [mk_ok row b1 b10]))
    [].

End Formatter.

(** ** class CLI

    [run], from the parsed arguments on: [args] is what
    [parser.parse_args()] returned and [argv] is [sys.argv]. *)

Module CLI.

Record Args : Type := mk {
  vout : list Q;
  vbat_ov : option Q;
  never_exceed_ov : bool;
  vbat_ok_prog : option Q;
  vbat_ok_hyst : option Q;
  vbat_uv : Q;
  series : string;
  decades : Z * Z;
  rsum_max : Q;
  limit : Z;
  tolerance : Q
}.

(** [flag in sys.argv] *)
Definition in_argv (flag : string) (argv : list string) : bool :=
  existsb (String.eqb flag) argv.

(** The validation block of [run]: [Some msg] is [sys.exit(msg)]. *)
Definition validate (argv : list string) (args : Args) : option string :=
  if in_argv "--vout" argv
     && existsb (fun v => Py.ltb v 2.0 || Py.gtb v 5.5) (vout args)
  then Some "Error: VOUT must be between 2.0 V and 5.5 V."%string
  else if in_argv "--vbat-ov" argv
          && match vbat_ov args with
             | Some ov => negb (Qle_bool 2.2 ov && Qle_bool ov 5.5)
             | None => false
             end
  then Some "Error: VBAT_OV must be between 2.2 V and 5.5 V."%string
  else if in_argv "--vbat-ok-prog" argv || in_argv "--vbat-ok-hyst" argv
  then
    match vbat_ok_prog args, vbat_ok_hyst args with
    | Some prog, Some hyst =>
        if Py.ltb prog (vbat_uv args)
        then Some "Error: VBAT_OK_PROG must be >= VBAT_UV."%string
        else if Qle_bool hyst prog
        then Some "Error: VBAT_OK_HYST must be > VBAT_OK_PROG."%string
        else if match vbat_ov args with
                | Some ov => Py.gtb hyst ov
                | None => false
                end
        then Some "Error: VBAT_OK_HYST must be <= VBAT_OV."%string
        else None
    | _, _ =>
        Some "Error: Both --vbat-ok-prog and --vbat-ok-hyst must be provided."%string
    end
  else None.

Definition limits_of (args : Args) : DatasheetLimits.t :=
  DatasheetLimits.mk (vbat_uv args) (vbat_ov args).

Definition optimizer_of (args : Args) : Optimizer.t :=
  Optimizer.init
    (ESeries.init (series args) (fst (decades args)) (snd (decades args)))
    (rsum_max args) (limit args) (limits_of args).

(** How [run] ends: the help text, [sys.exit] with a message, an
    exception, or the three sections printed (the VOUT section once per
    target; the other two when asked for). *)
Inductive outcome : Type :=
| Help
| Exit (msg : string)
| Raised
| Printed (vout_sections : list (list Formatter.two_line))
          (ov_section : option (list Formatter.two_line))
          (ok_section : option (list Formatter.ok_line)).

(** The VOUT sections. *)
Definition run_vout (argv : list string) (args : Args)
    : option (list (list Formatter.two_line)) :=
  if in_argv "--vout" argv then
    Py.for_each (vout args)
      (fun out v =>
         rows <- Optimizer.search_two (optimizer_of args) v Calculator.vout
                   None 0.01
                   (Some (DatasheetLimits.allow_vout_target (limits_of args))) ;;
         lines <- Formatter.print_two_section rows Calculator.vout
                    (tolerance args) ;;
         Some (out ++ [lines]))
      []
  else Some [].

(** The VBAT_OV section; without a value the call
    [search_two(None, ...)] raises (a [TypeError], in the checker). *)
Definition run_ov (argv : list string) (args : Args)
    : option (option (list Formatter.two_line)) :=
  if in_argv "--vbat-ov" argv then
    match vbat_ov args with
    | Some ov =>
        rows <- Optimizer.search_two (optimizer_of args) ov Calculator.vbat_ov
                  (if never_exceed_ov args then Some ov else None) 0.01
                  (Some (DatasheetLimits.allow_vbat_ov_target (limits_of args))) ;;
        lines <- Formatter.print_two_section rows Calculator.vbat_ov
                   (tolerance args) ;;
        Some (Some lines)
    | None => None
    end
  else Some None.

(** The VBAT_OK section. *)
Definition run_ok (argv : list string) (args : Args)
    : option (option (list Formatter.ok_line)) :=
  if in_argv "--vbat-ok-prog" argv && in_argv "--vbat-ok-hyst" argv then
    rows <- Optimizer.search_ok (optimizer_of args)
              (vbat_ok_prog args) (vbat_ok_hyst args) ;;
    lines <- Formatter.print_ok_section rows (tolerance args) ;;
    Some (Some lines)
  else Some None.

Definition run (argv : list string) (args : Args) : outcome :=
  if (List.length argv =? 1)%nat then Help
  else
    match validate argv args with
    | Some msg => Exit msg
    | None =>
        match run_vout argv args with
        | None => Raised
        | Some vout_sections =>
            match run_ov argv args with
            | None => Raised
            | Some ov_section =>
                match run_ok argv args with
                | None => Raised
                | Some ok_section =>
                    Printed vout_sections ov_section ok_section
                end
            end
        end
    end.

End CLI.

(** * Vocabulary of the specification *)

(** What [ok_relationships] decides, as a proposition. *)
Definition relationships_hold (self : DatasheetLimits.t) (v_prog v_hyst : Q)
    : Prop :=
  DatasheetLimits.vbat_uv self <= v_prog /\
  v_prog <= v_hyst /\
  match DatasheetLimits.vbat_ov_target self with
  | Some ov => v_hyst <= ov
  | None => True
  end.

(** [returns o v]: the call [o] returns (does not raise), and its value is
    the number [v]. *)
Definition returns (o : option Q) (v : Q) : Prop :=
  exists v', o = Some v' /\ v' == v.

(** A perturbed resistor within the tolerance band of its nominal value. *)
Definition within_tol (r tol r' : Q) : Prop :=
  r * (1 - tol) <= r' /\ r' <= r * (1 + tol).

(** The transfer functions [two_res_bounds] is applied to. *)
Definition two_res_family : list vfunc_t :=
  [Calculator.vout; Calculator.vbat_ov; Calculator.vbat_ok_prog].

(** [two_res_bounds] returns an interval that holds every output of
    [vfunc] over the tolerance bands and the bias range. *)
Definition two_res_sound (vfunc : vfunc_t) (r1 r2 tol v_lo v_hi : Q) : Prop :=
  exists v_min v_max,
    WorstCase.two_res_bounds vfunc r1 r2 tol (v_lo, v_hi) = Some (v_min, v_max) /\
    forall r1' r2' v',
      within_tol r1 tol r1' -> within_tol r2 tol r2' ->
      v_lo <= v' -> v' <= v_hi ->
      exists v, vfunc r1' r2' v' = Some v /\ v_min <= v /\ v <= v_max.

(** The same for [ok_bounds] and its two formulas. *)
Definition ok_sound (r1 r2 r3 tol v_lo v_hi : Q) : Prop :=
  exists vp_min vp_max vh_min vh_max,
    WorstCase.ok_bounds r1 r2 r3 tol (v_lo, v_hi)
    = Some ((vp_min, vp_max), (vh_min, vh_max)) /\
    forall r1' r2' r3' v',
      within_tol r1 tol r1' -> within_tol r2 tol r2' -> within_tol r3 tol r3' ->
      v_lo <= v' -> v' <= v_hi ->
      (exists vp, Calculator.vbat_ok_prog r1' r2' v' = Some vp /\
                  vp_min <= vp /\ vp <= vp_max) /\
      (exists vh, Calculator.vbat_ok_hyst r1' r2' r3' v' = Some vh /\
                  vh_min <= vh /\ vh <= vh_max).

(** The nominal output of a two-resistor formula lies in the interval
    [two_res_bounds] returns for the datasheet bias corners. *)
Definition nominal_within_two (vfunc : vfunc_t) (r1 r2 tol : Q) : Prop :=
  exists v_nom v_min v_max,
    vfunc r1 r2 VBIAS_TYP = Some v_nom /\
    WorstCase.two_res_bounds vfunc r1 r2 tol (VBIAS_MIN, VBIAS_MAX)
    = Some (v_min, v_max) /\
    v_min <= v_nom /\ v_nom <= v_max.

(** The two nominal thresholds lie in the intervals [ok_bounds] returns. *)
Definition nominal_within_ok (r1 r2 r3 tol : Q) : Prop :=
  exists vp vh vp_min vp_max vh_min vh_max,
    Calculator.vbat_ok_prog r1 r2 VBIAS_TYP = Some vp /\
    Calculator.vbat_ok_hyst r1 r2 r3 VBIAS_TYP = Some vh /\
    WorstCase.ok_bounds r1 r2 r3 tol (VBIAS_MIN, VBIAS_MAX)
    = Some ((vp_min, vp_max), (vh_min, vh_max)) /\
    (vp_min <= vp /\ vp <= vp_max) /\ (vh_min <= vh /\ vh <= vh_max).

(** The base table [values] picks for a series. *)
Definition base_of (self : ESeries.t) : list Q :=
  if String.eqb (ESeries.name self) "E24" then E24_BASE else E96_BASE.

(** The values before the final sort: decade after decade, each the base
    table scaled. *)
Definition scaled_decades (base : list Q) (decades : list Z) : list Q :=
  flat_map (fun d => map (fun b => b * ESeries.pow10 d) base) decades.

(** A checkable form of "strictly increasing, every entry in [1, 10)". *)
Fixpoint strictly_increasing_b (l : list Q) : bool :=
  match l with
  | [] => true
  | x :: l' => forallb (Py.ltb x) l' && strictly_increasing_b l'
  end.

(** A mantissa lies in [1, 10). *)
Definition mantissa_b (b : Q) : bool := Qle_bool 1 b && Py.ltb b 10.

(** What the proofs use of a base table. *)
Definition mantissas (base : list Q) : Prop :=
  StronglySorted Qlt base /\ Forall (fun b => 1 <= b /\ b < 10) base.

(** The order of the sort keys [(error, rsum)]. *)
Definition lex_le (a b : Q * Q) : Prop :=
  fst a < fst b \/ (fst a == fst b /\ snd a <= snd b).

(** A list ranked as the searches promise: non-decreasing by error, and
    among equal errors non-decreasing by resistance sum.  Both hold between
    every earlier and every later element. *)
Definition ranked {C : Type} (error rsum : C -> Q) (l : list C) : Prop :=
  StronglySorted (fun a b => error a <= error b) l /\
  StronglySorted (fun a b => error a == error b -> rsum a <= rsum b) l.

(** [ranked] on the two record types. *)
Definition two_ranked : list TwoResCandidate.t -> Prop :=
  ranked TwoResCandidate.error TwoResCandidate.rsum.

Definition three_ranked : list ThreeResCandidate.t -> Prop :=
  ranked ThreeResCandidate.error ThreeResCandidate.rsum.

(** Every value of the pool is strictly positive, as the values of a
    series are. *)
Definition pool_positive (self : Optimizer.t) : Prop :=
  forall x, In x (Optimizer.pool self) -> 0 < x.

(** The result holds no more than [limit] records. *)
Definition within_limit {C : Type} (limit : Z) (l : list C) : Prop :=
  (Z.of_nat (List.length l) <= limit)%Z.

(** A configuration of the command line: the 24-value series over decade 6,
    undervoltage floor 1.95 V, overvoltage ceiling 4.2 V. *)
Definition example_limits : DatasheetLimits.t :=
  DatasheetLimits.mk 1.95 (Some 4.2).

(** The optimizer of that configuration. *)
Definition example_optimizer (rsum_max : Q) (limit : Z) : Optimizer.t :=
  Optimizer.init (ESeries.init "E24" 6 6) rsum_max limit example_limits.

(** The record passed the relationship check of the rules. *)
Definition relationships_ok (limits : DatasheetLimits.t)
    (c : ThreeResCandidate.t) : Prop :=
  DatasheetLimits.ok_relationships limits
    (ThreeResCandidate.v_prog c) (ThreeResCandidate.v_hyst c) = true.

(** The target passes the optional admissibility check of [search_two]. *)
Definition admitted (target_checker : option (Q -> bool)) (target : Q) : Prop :=
  match target_checker with
  | Some checker => checker target = true
  | None => True
  end.

(** What [search_two] makes of the candidates its loops accepted. *)
Definition two_result (self : Optimizer.t) (cands : list TwoResCandidate.t)
    : list TwoResCandidate.t :=
  Py.slice_to (Py.sorted Optimizer.two_key_ltb cands) (Optimizer.limit self).

(** The (bottom, top) pairs of a list of candidates. *)
Definition accepted_pairs (l : list TwoResCandidate.t) : list (Q * Q) :=
  map (fun c => (TwoResCandidate.r1 c, TwoResCandidate.r2 c)) l.

(** ** Vocabulary of the further properties *)

(** Both calls return, the first a strictly smaller number. *)
Definition lt_result (o o' : option Q) : Prop :=
  exists v v', o = Some v /\ o' = Some v' /\ v < v'.

(** The bias voltage lies between the corners. *)
Definition within_bias (v_lo v_hi v' : Q) : Prop := v_lo <= v' /\ v' <= v_hi.

(** [v] is an output of the two-resistor formula [vfunc] somewhere in the
    tolerance bands and the bias range. *)
Definition two_res_attained (vfunc : vfunc_t) (r1 r2 tol v_lo v_hi v : Q)
    : Prop :=
  exists r1' r2' v',
    within_tol r1 tol r1' /\ within_tol r2 tol r2' /\
    within_bias v_lo v_hi v' /\ vfunc r1' r2' v' = Some v.

(** The same for the hysteresis formula. *)
Definition hyst_attained (r1 r2 r3 tol v_lo v_hi v : Q) : Prop :=
  exists r1' r2' r3' v',
    within_tol r1 tol r1' /\ within_tol r2 tol r2' /\ within_tol r3 tol r3' /\
    within_bias v_lo v_hi v' /\
    Calculator.vbat_ok_hyst r1' r2' r3' v' = Some v.

(** The interval of the first result lies inside the interval of the
    second. *)
Definition interval_inside (o o' : option (Q * Q)) : Prop :=
  exists a b a' b',
    o = Some (a, b) /\ o' = Some (a', b') /\ a' <= a /\ b <= b'.

(** A loop step that only appends to the list it is given, or raises
    whatever the list is. *)
Definition appends {C : Type} (step : list C -> option (list C)) : Prop :=
  forall s, step s = option_map (app s) (step []).

(** The sort keys of the two record types. *)
Definition two_key (c : TwoResCandidate.t) : Q * Q :=
  (TwoResCandidate.error c, TwoResCandidate.rsum c).

Definition three_key (c : ThreeResCandidate.t) : Q * Q :=
  (ThreeResCandidate.error c, ThreeResCandidate.rsum c).

(** What makes a record a candidate of [search_two]: a pair of pool values
    within the resistance-sum ceiling, its fields computed from the pair,
    and its worst-case upper bound within the never-exceed ceiling (with
    the slack) when there is one. *)
Definition two_accepted (self : Optimizer.t) (target : Q) (vfunc : vfunc_t)
    (never_exceed : option Q) (tol_for_ne : Q) (c : TwoResCandidate.t) : Prop :=
  In (TwoResCandidate.r1 c) (Optimizer.pool self) /\
  In (TwoResCandidate.r2 c) (Optimizer.pool self) /\
  TwoResCandidate.rsum c = TwoResCandidate.r1 c + TwoResCandidate.r2 c /\
  TwoResCandidate.rsum c <= Optimizer.rsum_max self /\
  vfunc (TwoResCandidate.r1 c) (TwoResCandidate.r2 c) VBIAS_TYP
  = Some (TwoResCandidate.v_nom c) /\
  TwoResCandidate.error c = Qabs (TwoResCandidate.v_nom c - target) /\
  match never_exceed with
  | Some ne =>
      exists vmin vmax,
        WorstCase.two_res_bounds vfunc (TwoResCandidate.r1 c)
          (TwoResCandidate.r2 c) tol_for_ne (VBIAS_MIN, VBIAS_MAX)
        = Some (vmin, vmax) /\
        vmax <= ne + 1e-12
  | None => True
  end.

(** The error [search_ok] gives a pair of thresholds; no error without a
    target. *)
Definition ok_error (target_prog target_hyst : option Q) (vp vh : Q)
    : option Q :=
  match target_prog, target_hyst with
  | Some tp, Some th => Some (Qabs (vp - tp) + Qabs (vh - th))
  | Some tp, None => Some (Qabs (vp - tp))
  | None, Some th => Some (Qabs (vh - th))
  | None, None => None
  end.

(** What makes a record a candidate of [search_ok]. *)
Definition three_accepted (self : Optimizer.t) (target_prog target_hyst : option Q)
    (c : ThreeResCandidate.t) : Prop :=
  In (ThreeResCandidate.r1 c) (Optimizer.pool self) /\
  In (ThreeResCandidate.r2 c) (Optimizer.pool self) /\
  In (ThreeResCandidate.r3 c) (Optimizer.pool self) /\
  ThreeResCandidate.rsum c
  = ThreeResCandidate.r1 c + ThreeResCandidate.r2 c + ThreeResCandidate.r3 c /\
  ThreeResCandidate.rsum c <= Optimizer.rsum_max self /\
  Calculator.vbat_ok_prog (ThreeResCandidate.r1 c) (ThreeResCandidate.r2 c)
    VBIAS_TYP = Some (ThreeResCandidate.v_prog c) /\
  Calculator.vbat_ok_hyst (ThreeResCandidate.r1 c) (ThreeResCandidate.r2 c)
    (ThreeResCandidate.r3 c) VBIAS_TYP = Some (ThreeResCandidate.v_hyst c) /\
  DatasheetLimits.ok_relationships (Optimizer.limits self)
    (ThreeResCandidate.v_prog c) (ThreeResCandidate.v_hyst c) = true /\
  ok_error target_prog target_hyst
    (ThreeResCandidate.v_prog c) (ThreeResCandidate.v_hyst c)
  = Some (ThreeResCandidate.error c).

(** What [search_ok] makes of the candidates its loops accepted. *)
Definition three_result (self : Optimizer.t) (cands : list ThreeResCandidate.t)
    : list ThreeResCandidate.t :=
  Py.slice_to (Py.sorted Optimizer.three_key_ltb cands) (Optimizer.limit self).

(** [result] are the best records of [cands]: the two lists and a rest
    make up [cands], no record of the rest ranks before a returned one, and
    the result is as long as the limit allows. *)
Definition top_of {C : Type} (key : C -> Q * Q) (limit : Z)
    (cands result : list C) : Prop :=
  exists rest,
    Permutation cands (result ++ rest) /\
    (forall c c', In c result -> In c' rest -> lex_le (key c) (key c')) /\
    ((0 <= limit)%Z ->
     List.length result = Nat.min (Z.to_nat limit) (List.length cands)).

(** The optimizer with another result limit. *)
Definition with_limit (self : Optimizer.t) (limit : Z) : Optimizer.t :=
  Optimizer.mk (Optimizer.series self) (Optimizer.rsum_max self) limit
    (Optimizer.limits self) (Optimizer.pool self).

(** The record has the sort key [k]. *)
Definition has_key {C : Type} (key : C -> Q * Q) (k : Q * Q) (c : C) : bool :=
  Qeq_bool (fst (key c)) (fst k) && Qeq_bool (snd (key c)) (snd k).

(** What the validation of [run] lets through. *)
Definition validated (argv : list string) (args : CLI.Args) : Prop :=
  (CLI.in_argv "--vout" argv = true ->
   forall v, In v (CLI.vout args) -> 2.0 <= v /\ v <= 5.5) /\
  (CLI.in_argv "--vbat-ov" argv = true ->
   forall ov, CLI.vbat_ov args = Some ov -> 2.2 <= ov /\ ov <= 5.5) /\
  (CLI.in_argv "--vbat-ok-prog" argv = true \/
   CLI.in_argv "--vbat-ok-hyst" argv = true ->
   exists prog hyst,
     CLI.vbat_ok_prog args = Some prog /\ CLI.vbat_ok_hyst args = Some hyst /\
     CLI.vbat_uv args <= prog /\ prog < hyst /\
     forall ov, CLI.vbat_ov args = Some ov -> hyst <= ov).

(** [v] lies in the interval. *)
Definition inside (i : Q * Q) (v : Q) : Prop := fst i <= v /\ v <= snd i.

(** The interval [i] lies inside the interval [j]. *)
Definition inside_interval (i j : Q * Q) : Prop :=
  fst j <= fst i /\ snd i <= snd j.

(** What a printed row of a two-resistor section shows: its candidate,
    two intervals that hold the nominal voltage and, for a tolerance of at
    most 10%, the first inside the second. *)
Definition two_line_shows (tol : Q) (row : TwoResCandidate.t)
    (line : Formatter.two_line) : Prop :=
  Formatter.two_row line = row /\
  inside (Formatter.two_tol line) (TwoResCandidate.v_nom row) /\
  inside (Formatter.two_10 line) (TwoResCandidate.v_nom row) /\
  (tol <= 0.10 -> inside_interval (Formatter.two_tol line) (Formatter.two_10 line)).

(** The same for a row of the VBAT_OK section, whose 1% intervals lie
    inside its 10% intervals. *)
Definition ok_line_shows (row : ThreeResCandidate.t) (line : Formatter.ok_line)
    : Prop :=
  Formatter.ok_row line = row /\
  inside (fst (Formatter.ok_1 line)) (ThreeResCandidate.v_prog row) /\
  inside (snd (Formatter.ok_1 line)) (ThreeResCandidate.v_hyst row) /\
  inside (fst (Formatter.ok_10 line)) (ThreeResCandidate.v_prog row) /\
  inside (snd (Formatter.ok_10 line)) (ThreeResCandidate.v_hyst row) /\
  inside_interval (fst (Formatter.ok_1 line)) (fst (Formatter.ok_10 line)) /\
  inside_interval (snd (Formatter.ok_1 line)) (snd (Formatter.ok_10 line)).

(** * Properties *)

(** ** The comparisons *)

Lemma ltb_true (x y : Q) : Py.ltb x y = true <-> x < y.
Proof.
  unfold Py.ltb. rewrite negb_true_iff.
  destruct (Qle_bool y x) eqn:E.
  - apply Qle_bool_iff in E. split; [discriminate | intro H].
    exfalso. apply (Qlt_not_le _ _ H E).
  - split; [intros _ | reflexivity].
    apply Qnot_le_lt. intro H. apply Qle_bool_iff in H. congruence.
Qed.

Lemma ltb_false (x y : Q) : Py.ltb x y = false <-> y <= x.
Proof.
  unfold Py.ltb. rewrite negb_false_iff. apply Qle_bool_iff.
Qed.

Lemma gtb_true (x y : Q) : Py.gtb x y = true <-> y < x.
Proof. apply ltb_true. Qed.

Lemma gtb_false (x y : Q) : Py.gtb x y = false <-> x <= y.
Proof. apply ltb_false. Qed.

Lemma truediv_nonzero (x y : Q) : ~ y == 0 -> Py.truediv x y = Some (x / y).
Proof.
  intro H. unfold Py.truediv.
  destruct (Qeq_bool y 0) eqn:E; [|reflexivity].
  apply Qeq_bool_eq in E. contradiction.
Qed.

Lemma truediv_pos (x y : Q) : 0 < y -> Py.truediv x y = Some (x / y).
Proof. intro H. apply truediv_nonzero. lra. Qed.

(** ** DatasheetLimits *)

Lemma ok_relationships_iff (self : DatasheetLimits.t) (v_prog v_hyst : Q) :
  DatasheetLimits.ok_relationships self v_prog v_hyst = true <->
  relationships_hold self v_prog v_hyst.
Proof.
  unfold DatasheetLimits.ok_relationships, relationships_hold.
  destruct (Py.ltb v_prog (DatasheetLimits.vbat_uv self)) eqn:E1.
  { apply ltb_true in E1. split; [discriminate | intros [H _]; lra]. }
  apply ltb_false in E1.
  destruct (Py.ltb v_hyst v_prog) eqn:E2.
  { apply ltb_true in E2. split; [discriminate | intros (_ & H & _); lra]. }
  apply ltb_false in E2.
  destruct (DatasheetLimits.vbat_ov_target self) as [ov|].
  - destruct (Py.gtb v_hyst ov) eqn:E3.
    + apply gtb_true in E3. split; [discriminate | intros (_ & _ & H); lra].
    + apply gtb_false in E3. tauto.
  - tauto.
Qed.

(** C6: [ok_relationships] rejects a programmed threshold below the
    undervoltage floor, rejects a hysteresis threshold below the programmed
    one, rejects a hysteresis threshold above a configured overvoltage
    ceiling, and accepts otherwise; with floor 1.95 and ceiling 4.2 it
    accepts (3.5, 3.7) and rejects (1.9, 3.7). *)
Theorem ok_relationships_spec :
  (forall (self : DatasheetLimits.t) (v_prog v_hyst : Q),
      (v_prog < DatasheetLimits.vbat_uv self ->
       DatasheetLimits.ok_relationships self v_prog v_hyst = false) /\
      (v_hyst < v_prog ->
       DatasheetLimits.ok_relationships self v_prog v_hyst = false) /\
      (forall ov, DatasheetLimits.vbat_ov_target self = Some ov ->
                  ov < v_hyst ->
       DatasheetLimits.ok_relationships self v_prog v_hyst = false) /\
      (~ v_prog < DatasheetLimits.vbat_uv self ->
       ~ v_hyst < v_prog ->
       (forall ov, DatasheetLimits.vbat_ov_target self = Some ov ->
                   ~ ov < v_hyst) ->
       DatasheetLimits.ok_relationships self v_prog v_hyst = true)) /\
  DatasheetLimits.ok_relationships
    (DatasheetLimits.mk 1.95 (Some 4.2)) 3.5 3.7 = true /\
  DatasheetLimits.ok_relationships
    (DatasheetLimits.mk 1.95 (Some 4.2)) 1.9 3.7 = false.
Proof.
  split; [|split; reflexivity].
  intros self v_prog v_hyst.
  assert (R : forall b, (b = true <-> relationships_hold self v_prog v_hyst) ->
                        ~ relationships_hold self v_prog v_hyst -> b = false).
  { intros [] Hb Hn; [exfalso; apply Hn, Hb|]; reflexivity. }
  pose proof (ok_relationships_iff self v_prog v_hyst) as Hiff.
  unfold relationships_hold in *.
  repeat split.
  - intro H. apply R; [exact Hiff|]. intros (H1 & _). lra.
  - intro H. apply R; [exact Hiff|]. intros (_ & H1 & _). lra.
  - intros ov Hov H. apply R; [exact Hiff|]. rewrite Hov. intros (_ & _ & H1). lra.
  - intros H1 H2 H3. apply Hiff. repeat split.
    + apply Qnot_lt_le, H1.
    + apply Qnot_lt_le, H2.
    + destruct (DatasheetLimits.vbat_ov_target self) as [ov|]; [|exact I].
      apply Qnot_lt_le, (H3 ov eq_refl).
Qed.

Lemma ok_relationships_spec_witness :
  DatasheetLimits.ok_relationships example_limits 1.9 3.7 = false /\
  DatasheetLimits.ok_relationships example_limits 3.7 3.5 = false /\
  DatasheetLimits.ok_relationships example_limits 3.5 4.3 = false /\
  DatasheetLimits.ok_relationships example_limits 3.5 3.7 = true.
Proof.
  destruct (proj1 ok_relationships_spec example_limits 1.9 3.7) as (H1 & _).
  destruct (proj1 ok_relationships_spec example_limits 3.7 3.5) as (_ & H2 & _).
  destruct (proj1 ok_relationships_spec example_limits 3.5 4.3) as (_ & _ & H3 & _).
  destruct (proj1 ok_relationships_spec example_limits 3.5 3.7) as (_ & _ & _ & H4).
  split; [apply H1; reflexivity|].
  split; [apply H2; reflexivity|].
  split; [apply (H3 4.2); reflexivity|].
  apply H4.
  - simpl. lra.
  - lra.
  - simpl. intros ov E. injection E as <-. lra.
Defined.

(** C10: equal thresholds are accepted: [ok_relationships(v, v)] holds for
    every [v] at or above the undervoltage floor and at or below the
    overvoltage ceiling when there is one; and whenever the floor and the
    ceiling tests pass, a rejection means [v_hyst] is strictly below
    [v_prog]. *)
Theorem ok_relationships_equal_thresholds
    (self : DatasheetLimits.t) (v : Q)
    (Hfloor : DatasheetLimits.vbat_uv self <= v)
    (Hceil : forall ov, DatasheetLimits.vbat_ov_target self = Some ov -> v <= ov) :
  DatasheetLimits.ok_relationships self v v = true /\
  (forall v_prog v_hyst,
      DatasheetLimits.vbat_uv self <= v_prog ->
      (forall ov, DatasheetLimits.vbat_ov_target self = Some ov -> v_hyst <= ov) ->
      (DatasheetLimits.ok_relationships self v_prog v_hyst = false <->
       v_hyst < v_prog)).
Proof.
  split.
  - apply ok_relationships_iff. unfold relationships_hold.
    repeat split; [exact Hfloor | lra |].
    destruct (DatasheetLimits.vbat_ov_target self) as [ov|]; [|exact I].
    apply Hceil. reflexivity.
  - intros v_prog v_hyst H1 H3.
    pose proof (ok_relationships_iff self v_prog v_hyst) as Hiff.
    unfold relationships_hold in Hiff.
    destruct (DatasheetLimits.ok_relationships self v_prog v_hyst).
    + split; [discriminate|]. intro H.
      destruct (proj1 Hiff eq_refl) as (_ & H2 & _). lra.
    + split; [intros _ | reflexivity].
      apply Qnot_le_lt. intro H2.
      assert (false = true); [|discriminate].
      apply Hiff. repeat split; [exact H1 | exact H2 |].
      destruct (DatasheetLimits.vbat_ov_target self) as [ov|]; [|exact I].
      apply H3. reflexivity.
Qed.

Lemma ok_relationships_equal_thresholds_witness :
  DatasheetLimits.ok_relationships (DatasheetLimits.mk 1.95 (Some 4.2)) 3 3 = true /\
  (forall v_prog v_hyst,
      1.95 <= v_prog ->
      (forall ov, Some 4.2 = Some ov -> v_hyst <= ov) ->
      (DatasheetLimits.ok_relationships
         (DatasheetLimits.mk 1.95 (Some 4.2)) v_prog v_hyst = false <->
       v_hyst < v_prog)).
Proof.
  apply (ok_relationships_equal_thresholds (DatasheetLimits.mk 1.95 (Some 4.2)) 3).
  - simpl. lra.
  - simpl. intros ov H. injection H as <-. lra.
Defined.

(** ** Calculator *)

Lemma vout_pos (r1 r2 vbias : Q) :
  0 < r1 -> Calculator.vout r1 r2 vbias = Some (vbias * (1.0 + r2 / r1)).
Proof.
  intro H. unfold Calculator.vout. rewrite truediv_pos by exact H. reflexivity.
Qed.

Lemma vbat_ov_pos (r1 r2 vbias : Q) :
  0 < r1 ->
  Calculator.vbat_ov r1 r2 vbias = Some (1.5 * vbias * (1.0 + r2 / r1)).
Proof.
  intro H. unfold Calculator.vbat_ov. rewrite truediv_pos by exact H.
  reflexivity.
Qed.

Lemma vbat_ok_prog_pos (r1 r2 vbias : Q) :
  0 < r1 ->
  Calculator.vbat_ok_prog r1 r2 vbias = Some (vbias * (1.0 + r2 / r1)).
Proof.
  intro H. unfold Calculator.vbat_ok_prog. rewrite truediv_pos by exact H.
  reflexivity.
Qed.

Lemma vbat_ok_hyst_pos (r1 r2 r3 vbias : Q) :
  0 < r1 ->
  Calculator.vbat_ok_hyst r1 r2 r3 vbias
  = Some (vbias * (1.0 + (r2 + r3) / r1)).
Proof.
  intro H. unfold Calculator.vbat_ok_hyst. rewrite truediv_pos by exact H.
  reflexivity.
Qed.



(** ** WorstCase *)

Lemma div_mono (n n' d d' : Q) :
  0 <= n -> n <= n' -> 0 < d' -> d' <= d -> 0 <= n / d /\ n / d <= n' / d'.
Proof.
  intros Hn Hnn Hd' Hdd.
  assert (Hd : 0 < d) by lra.
  assert (H0 : 0 <= n / d) by (apply Qle_shift_div_l; lra).
  split; [exact H0|].
  apply Qle_shift_div_l; [exact Hd'|].
  assert (E : n / d * d == n) by (field; lra).
  nra.
Qed.

Lemma scaled_mono (v v' x y : Q) :
  0 <= v -> v <= v' -> 0 <= x -> x <= y -> v * (1.0 + x) <= v' * (1.0 + y).
Proof. intros. nra. Qed.

(** The monotonicity the corner choice rests on: a smaller bias, smaller
    upper resistors and a larger bottom resistor give a smaller output. *)
Lemma ratio_mono (v v' n n' d d' : Q) :
  0 <= v -> v <= v' -> 0 <= n -> n <= n' -> 0 < d' -> d' <= d ->
  v * (1.0 + n / d) <= v' * (1.0 + n' / d').
Proof.
  intros Hv Hvv Hn Hnn Hd' Hdd.
  destruct (div_mono n n' d d' Hn Hnn Hd' Hdd) as [H0 H1].
  apply scaled_mono; assumption.
Qed.

Section Corners.
Variables r1 r2 r3 tol v_lo v_hi : Q.
Hypothesis Hr1 : 0 < r1.
Hypothesis Hr2 : 0 < r2.
Hypothesis Hr3 : 0 < r3.
Hypothesis Htol0 : 0 <= tol.
Hypothesis Htol1 : tol < 1.
Hypothesis Hlo : 0 < v_lo.

Lemma bottom_corners : 0 < r1 * (1 - tol) /\ 0 < r1 * (1 + tol).
Proof. split; nra. Qed.

Lemma band_pos (r r' : Q) : 0 < r -> within_tol r tol r' -> 0 < r'.
Proof. intros H [H1 _]. nra. Qed.

Lemma band_lower_nonneg (r : Q) : 0 < r -> 0 <= r * (1 - tol).
Proof. intro H. nra. Qed.

Lemma two_res_sound_vout :
  two_res_sound Calculator.vout r1 r2 tol v_lo v_hi.
Proof.
  destruct bottom_corners as [Hmin Hmax].
  unfold two_res_sound, WorstCase.two_res_bounds. cbn [fst snd].
  rewrite !vout_pos by assumption.
  eexists. eexists. split; [reflexivity|].
  intros r1' r2' v' B1 B2 Hv1 Hv2.
  pose proof (band_pos r1 r1' Hr1 B1) as Hr1'.
  destruct B1 as [B1 B1'], B2 as [B2 B2'].
  pose proof (band_lower_nonneg r2 Hr2) as Hn.
  rewrite vout_pos by assumption.
  eexists. split; [reflexivity|].
  split; apply ratio_mono; solve [assumption | lra].
Qed.

Lemma two_res_sound_vbat_ok_prog :
  two_res_sound Calculator.vbat_ok_prog r1 r2 tol v_lo v_hi.
Proof.
  destruct bottom_corners as [Hmin Hmax].
  unfold two_res_sound, WorstCase.two_res_bounds. cbn [fst snd].
  rewrite !vbat_ok_prog_pos by assumption.
  eexists. eexists. split; [reflexivity|].
  intros r1' r2' v' B1 B2 Hv1 Hv2.
  pose proof (band_pos r1 r1' Hr1 B1) as Hr1'.
  destruct B1 as [B1 B1'], B2 as [B2 B2'].
  pose proof (band_lower_nonneg r2 Hr2) as Hn.
  rewrite vbat_ok_prog_pos by assumption.
  eexists. split; [reflexivity|].
  split; apply ratio_mono; solve [assumption | lra].
Qed.

Lemma two_res_sound_vbat_ov :
  two_res_sound Calculator.vbat_ov r1 r2 tol v_lo v_hi.
Proof.
  destruct bottom_corners as [Hmin Hmax].
  unfold two_res_sound, WorstCase.two_res_bounds. cbn [fst snd].
  rewrite !vbat_ov_pos by assumption.
  eexists. eexists. split; [reflexivity|].
  intros r1' r2' v' B1 B2 Hv1 Hv2.
  pose proof (band_pos r1 r1' Hr1 B1) as Hr1'.
  destruct B1 as [B1 B1'], B2 as [B2 B2'].
  pose proof (band_lower_nonneg r2 Hr2) as Hn.
  rewrite vbat_ov_pos by assumption.
  eexists. split; [reflexivity|].
  split; apply ratio_mono; solve [assumption | lra].
Qed.

Lemma two_res_sound_family (vfunc : vfunc_t) :
  In vfunc two_res_family -> two_res_sound vfunc r1 r2 tol v_lo v_hi.
Proof.
  intros [<- | [<- | [<- | []]]].
  - apply two_res_sound_vout.
  - apply two_res_sound_vbat_ov.
  - apply two_res_sound_vbat_ok_prog.
Qed.

Lemma ok_sound_corners : ok_sound r1 r2 r3 tol v_lo v_hi.
Proof.
  destruct bottom_corners as [Hmin Hmax].
  unfold ok_sound, WorstCase.ok_bounds. cbn [fst snd].
  rewrite !vbat_ok_prog_pos, !vbat_ok_hyst_pos by assumption.
  do 4 eexists. split; [reflexivity|].
  intros r1' r2' r3' v' B1 B2 B3 Hv1 Hv2.
  pose proof (band_pos r1 r1' Hr1 B1) as Hr1'.
  destruct B1 as [B1 B1'], B2 as [B2 B2'], B3 as [B3 B3'].
  pose proof (band_lower_nonneg r2 Hr2) as Hn2.
  pose proof (band_lower_nonneg r3 Hr3) as Hn3.
  rewrite vbat_ok_prog_pos, vbat_ok_hyst_pos by assumption.
  split; eexists; (split; [reflexivity|]);
    split; apply ratio_mono; solve [assumption | lra].
Qed.
End Corners.



Lemma within_tol_nominal (r tol : Q) : 0 < r -> 0 <= tol -> within_tol r tol r.
Proof. intros Hr Ht. unfold within_tol. split; nra. Qed.

Lemma bias_corners : 0 < VBIAS_MIN /\ VBIAS_MIN <= VBIAS_TYP /\
                     VBIAS_TYP <= VBIAS_MAX.
Proof. unfold VBIAS_MIN, VBIAS_TYP, VBIAS_MAX. repeat split; lra. Qed.




(** ** Loops, sorting and slicing *)

Section ForEach.
Context {A S : Type}.

(** A property of the loop state that every iteration keeps holds when
    the loop ends. *)
Lemma for_each_inv (P : S -> Prop) (body : S -> A -> option S) (l : list A) :
  (forall s x s', In x l -> P s -> body s x = Some s' -> P s') ->
  forall s t, P s -> Py.for_each l body s = Some t -> P t.
Proof.
  induction l as [|x l IH]; intros Hstep s t Hs H; simpl in H.
  - injection H as <-. exact Hs.
  - destruct (body s x) as [s'|] eqn:E; [|discriminate].
    apply (IH (fun s0 y s1 Hy => Hstep s0 y s1 (or_intror Hy)) s' t); [|exact H].
    apply (Hstep s x s'); [left; reflexivity | exact Hs | exact E].
Qed.

(** If no iteration raises from a state with the property, and every
    iteration keeps it, the loop ends without raising. *)
Lemma for_each_total (P : S -> Prop) (body : S -> A -> option S) (l : list A) :
  (forall s x, In x l -> P s -> exists s', body s x = Some s' /\ P s') ->
  forall s, P s -> exists t, Py.for_each l body s = Some t /\ P t.
Proof.
  induction l as [|x l IH]; intros Hstep s Hs; simpl.
  - exists s. split; [reflexivity | exact Hs].
  - destruct (Hstep s x (or_introl eq_refl) Hs) as (s' & E & Hs').
    rewrite E. apply IH; [|exact Hs'].
    intros s0 y Hy. apply Hstep. right. exact Hy.
Qed.

(** Two loops over the same list, their states related by [R]. *)
Lemma for_each_rel (R : S -> S -> Prop) (body1 body2 : S -> A -> option S)
    (l : list A) :
  (forall s1 s2 x s1', In x l -> R s1 s2 -> body1 s1 x = Some s1' ->
                       exists s2', body2 s2 x = Some s2' /\ R s1' s2') ->
  forall s1 s2 t1, R s1 s2 -> Py.for_each l body1 s1 = Some t1 ->
                   exists t2, Py.for_each l body2 s2 = Some t2 /\ R t1 t2.
Proof.
  induction l as [|x l IH]; intros Hstep s1 s2 t1 HR H; simpl in *.
  - injection H as <-. exists s2. split; [reflexivity | exact HR].
  - destruct (body1 s1 x) as [s1'|] eqn:E; [|discriminate].
    destruct (Hstep s1 s2 x s1' (or_introl eq_refl) HR E) as (s2' & E2 & HR').
    rewrite E2. apply (IH (fun a b y c Hy => Hstep a b y c (or_intror Hy)) s1');
      assumption.
Qed.
End ForEach.

Section SortFacts.
Context {A : Type} (lt : A -> A -> bool).

Lemma In_insert (x y : A) (l : list A) :
  In y (Py.insert lt x l) <-> y = x \/ In y l.
Proof.
  induction l as [|z l IH]; simpl.
  - intuition auto.
  - destruct (lt z x); simpl; rewrite ?IH; intuition auto.
Qed.

Lemma In_sorted (y : A) (l : list A) : In y (Py.sorted lt l) <-> In y l.
Proof.
  induction l as [|x l IH]; simpl; [tauto|].
  rewrite In_insert, IH. intuition auto.
Qed.

(** The order the sort establishes: [le] is any transitive relation that
    holds where [lt] says "strictly smaller" and, the other way round,
    where it does not. *)
Variable le : A -> A -> Prop.
Hypothesis le_trans : forall x y z, le x y -> le y z -> le x z.
Hypothesis lt_le : forall x y, lt x y = true -> le x y.
Hypothesis nlt_le : forall x y, lt y x = false -> le x y.

Lemma insert_StronglySorted (x : A) (l : list A) :
  StronglySorted le l -> StronglySorted le (Py.insert lt x l).
Proof.
  induction 1 as [|y l Hl IH Hy]; simpl.
  - constructor; constructor.
  - destruct (lt y x) eqn:E.
    + constructor; [exact IH|].
      apply Forall_forall. intros z Hz. apply In_insert in Hz.
      destruct Hz as [-> | Hz]; [apply lt_le, E|].
      rewrite Forall_forall in Hy. apply Hy, Hz.
    + constructor; [constructor; assumption|].
      constructor; [apply nlt_le, E|].
      apply Forall_forall. intros z Hz.
      apply le_trans with y; [apply nlt_le, E|].
      rewrite Forall_forall in Hy. apply Hy, Hz.
Qed.

Lemma sorted_StronglySorted (l : list A) : StronglySorted le (Py.sorted lt l).
Proof.
  induction l as [|x l IH]; simpl; [constructor|].
  apply insert_StronglySorted, IH.
Qed.

(** Sorting a list that is strictly increasing already changes nothing. *)
Lemma sorted_increasing (l : list A) :
  StronglySorted (fun x y => lt y x = false) l -> Py.sorted lt l = l.
Proof.
  induction 1 as [|x l Hl IH Hx]; simpl; [reflexivity|].
  rewrite IH. destruct l as [|y l]; [reflexivity|]. simpl.
  inversion Hx as [|? ? Hy _]; subst. rewrite Hy. reflexivity.
Qed.
End SortFacts.

Section ListFacts.
Context {A : Type}.

Lemma StronglySorted_impl (R1 R2 : A -> A -> Prop) (l : list A) :
  (forall x y, R1 x y -> R2 x y) ->
  StronglySorted R1 l -> StronglySorted R2 l.
Proof.
  intros H. induction 1 as [|x l Hl IH Hx]; constructor; [exact IH|].
  revert Hx. apply Forall_impl. intro y. apply H.
Qed.

Lemma In_firstn (n : nat) (l : list A) (x : A) : In x (firstn n l) -> In x l.
Proof.
  revert l. induction n as [|n IH]; intros [|y l]; simpl; try tauto.
  intros [-> | H]; [left; reflexivity | right; apply IH, H].
Qed.

Lemma firstn_StronglySorted (R : A -> A -> Prop) (n : nat) (l : list A) :
  StronglySorted R l -> StronglySorted R (firstn n l).
Proof.
  intro H. revert n. induction H as [|x l Hl IH Hx]; intros [|n]; simpl;
    try constructor.
  - apply IH.
  - apply Forall_forall. intros y Hy. apply In_firstn in Hy.
    rewrite Forall_forall in Hx. apply Hx, Hy.
Qed.

Lemma In_slice_to (n : Z) (l : list A) (x : A) :
  In x (Py.slice_to l n) -> In x l.
Proof. unfold Py.slice_to. destruct (n <? 0)%Z; apply In_firstn. Qed.

Lemma slice_to_StronglySorted (R : A -> A -> Prop) (n : Z) (l : list A) :
  StronglySorted R l -> StronglySorted R (Py.slice_to l n).
Proof.
  unfold Py.slice_to. destruct (n <? 0)%Z; apply firstn_StronglySorted.
Qed.

Lemma slice_to_length (n : Z) (l : list A) :
  (0 <= n)%Z -> (Z.of_nat (List.length (Py.slice_to l n)) <= n)%Z.
Proof.
  intro H. unfold Py.slice_to.
  destruct (n <? 0)%Z eqn:E; [apply Z.ltb_lt in E; lia|].
  pose proof (firstn_le_length (Z.to_nat n) l).
  rewrite length_firstn. lia.
Qed.

Lemma slice_to_nil (n : Z) : Py.slice_to (@nil A) n = [].
Proof.
  unfold Py.slice_to. destruct (n <? 0)%Z; apply firstn_nil.
Qed.
End ListFacts.

(** ** ESeries *)

Lemma strictly_increasing_b_sound (l : list Q) :
  strictly_increasing_b l = true -> StronglySorted Qlt l.
Proof.
  induction l as [|x l IH]; simpl; [constructor|].
  rewrite andb_true_iff, forallb_forall. intros [Hx Hl].
  constructor; [apply IH, Hl|].
  apply Forall_forall. intros y Hy. apply ltb_true, Hx, Hy.
Qed.

Lemma mantissas_checked (base : list Q) :
  strictly_increasing_b base = true -> forallb mantissa_b base = true ->
  mantissas base.
Proof.
  intros H1 H2. split; [apply strictly_increasing_b_sound, H1|].
  apply Forall_forall. intros b Hb.
  rewrite forallb_forall in H2. specialize (H2 b Hb).
  unfold mantissa_b in H2. apply andb_true_iff in H2 as [Ha Hc].
  split; [apply Qle_bool_iff, Ha | apply ltb_true, Hc].
Qed.

Lemma E24_mantissas : mantissas E24_BASE.
Proof. apply mantissas_checked; vm_compute; reflexivity. Qed.

Lemma E96_mantissas : mantissas E96_BASE.
Proof. apply mantissas_checked; vm_compute; reflexivity. Qed.

Lemma base_of_mantissas (self : ESeries.t) : mantissas (base_of self).
Proof.
  unfold base_of. destruct (String.eqb _ _);
    [apply E24_mantissas | apply E96_mantissas].
Qed.

Lemma pow10_pos (d : Z) : 0 < ESeries.pow10 d.
Proof. apply Qpower_0_lt. reflexivity. Qed.

Lemma pow10_succ (d : Z) : ESeries.pow10 (d + 1) == 10 * ESeries.pow10 d.
Proof.
  unfold ESeries.pow10. rewrite Qpower_plus by discriminate.
  change (inject_Z 10 ^ 1) with (inject_Z 10). unfold inject_Z. ring.
Qed.

Lemma range_nil (lo hi : Z) : (hi <= lo)%Z -> Py.range lo hi = [].
Proof.
  intro H. unfold Py.range.
  replace (Z.to_nat (hi - lo)) with 0%nat by lia. reflexivity.
Qed.

Lemma range_cons (lo hi : Z) :
  (lo < hi)%Z -> Py.range lo hi = lo :: Py.range (lo + 1) hi.
Proof.
  intro H. unfold Py.range.
  replace (Z.to_nat (hi - lo)) with (S (Z.to_nat (hi - (lo + 1)))) by lia.
  simpl. f_equal; [lia|].
  rewrite <- seq_shift, map_map. apply map_ext. intro i. lia.
Qed.

Lemma In_range (lo hi d : Z) : In d (Py.range lo hi) <-> (lo <= d < hi)%Z.
Proof.
  unfold Py.range. rewrite in_map_iff. split.
  - intros (i & <- & Hi). apply in_seq in Hi. lia.
  - intro H. exists (Z.to_nat (d - lo)). split; [lia|]. apply in_seq. lia.
Qed.

Lemma extend_loop (base : list Q) (decades : list Z) (acc : list Q) :
  fold_left
    (fun vals d =>
       let factor := ESeries.pow10 d in
       vals ++ map (fun b => b * factor) base)
    decades acc
  = acc ++ scaled_decades base decades.
Proof.
  revert acc. induction decades as [|d ds IH]; intro acc; simpl.
  - symmetry. apply app_nil_r.
  - rewrite IH, <- app_assoc. reflexivity.
Qed.

Lemma StronglySorted_app {A : Type} (R : A -> A -> Prop) (l1 l2 : list A) :
  StronglySorted R l1 -> StronglySorted R l2 ->
  (forall x y, In x l1 -> In y l2 -> R x y) ->
  StronglySorted R (l1 ++ l2).
Proof.
  intros H1 H2. induction H1 as [|x l1 Hl IH Hx]; intro H; simpl; [exact H2|].
  constructor.
  - apply IH. intros a b Ha. apply H. right. exact Ha.
  - apply Forall_app. split; [exact Hx|].
    apply Forall_forall. intros y Hy. apply H; [left; reflexivity | exact Hy].
Qed.

Lemma scale_sorted (k : Q) (l : list Q) :
  0 < k -> StronglySorted Qlt l ->
  StronglySorted Qlt (map (fun b => b * k) l).
Proof.
  intros Hk Hs. induction Hs as [|x l Hl IH Hx]; simpl.
  - constructor.
  - constructor; [exact IH|].
    apply Forall_forall. intros y Hy. apply in_map_iff in Hy as (b & <- & Hb).
    rewrite Forall_forall in Hx. specialize (Hx b Hb). nra.
Qed.

Section Decades.
Variable base : list Q.
Hypothesis Hbase : mantissas base.

Lemma decade_sorted (d : Z) :
  StronglySorted Qlt (map (fun b => b * ESeries.pow10 d) base).
Proof.
  destruct Hbase as [Hs _]. apply scale_sorted; [apply pow10_pos | exact Hs].
Qed.

Lemma decade_band (d : Z) (x : Q) :
  In x (map (fun b => b * ESeries.pow10 d) base) ->
  ESeries.pow10 d <= x /\ x < ESeries.pow10 (d + 1).
Proof.
  intro Hx. apply in_map_iff in Hx as (b & <- & Hb).
  destruct Hbase as [_ Hm]. rewrite Forall_forall in Hm.
  destruct (Hm b Hb) as [H1 H10].
  pose proof (pow10_pos d) as Hp. rewrite pow10_succ. split; nra.
Qed.

(** Consecutive decades do not overlap, so the concatenation is
    increasing as it stands. *)
Lemma scaled_decades_sorted (n : nat) :
  forall lo hi, Z.to_nat (hi - lo) = n ->
    StronglySorted Qlt (scaled_decades base (Py.range lo hi)) /\
    Forall (fun x => ESeries.pow10 lo <= x)
           (scaled_decades base (Py.range lo hi)).
Proof.
  induction n as [|n IH]; intros lo hi Hn.
  - rewrite range_nil by lia. split; constructor.
  - rewrite range_cons by lia. unfold scaled_decades. simpl.
    fold (scaled_decades base (Py.range (lo + 1) hi)).
    destruct (IH (lo + 1)%Z hi) as [Hs Hlow]; [lia|].
    rewrite Forall_forall in Hlow.
    pose proof (pow10_pos lo) as Hp. pose proof (pow10_succ lo) as Hsucc.
    split.
    + apply StronglySorted_app; [apply decade_sorted | exact Hs |].
      intros x y Hx Hy. apply decade_band in Hx. specialize (Hlow y Hy). lra.
    + apply Forall_app. split; apply Forall_forall; intros x Hx.
      * apply decade_band in Hx. tauto.
      * specialize (Hlow x Hx). lra.
Qed.

Lemma scaled_decades_pos (decades : list Z) :
  Forall (fun x => 0 < x) (scaled_decades base decades).
Proof.
  apply Forall_forall. intros x Hx.
  apply in_flat_map in Hx as (d & _ & Hx).
  apply decade_band in Hx. pose proof (pow10_pos d). lra.
Qed.
End Decades.

Lemma values_unsorted (self : ESeries.t) :
  ESeries.values self
  = scaled_decades (base_of self)
      (Py.range (ESeries.decade_min self) (ESeries.decade_max self + 1)).
Proof.
  unfold ESeries.values. fold (base_of self). rewrite extend_loop. simpl.
  apply sorted_increasing.
  destruct (scaled_decades_sorted (base_of self) (base_of_mantissas self)
              _ (ESeries.decade_min self) (ESeries.decade_max self + 1) eq_refl)
    as [Hs _].
  revert Hs. apply StronglySorted_impl.
  intros x y Hxy. apply ltb_false. lra.
Qed.

Lemma values_pos (self : ESeries.t) :
  forall x, In x (ESeries.values self) -> 0 < x.
Proof.
  rewrite values_unsorted. apply Forall_forall, scaled_decades_pos.
  apply base_of_mantissas.
Qed.

Lemma values_inverted (self : ESeries.t) :
  (ESeries.decade_max self < ESeries.decade_min self)%Z ->
  ESeries.values self = [].
Proof.
  intro H. rewrite values_unsorted, range_nil by lia. reflexivity.
Qed.


(** ** The ranking order *)

Lemma lex_le_trans (a b c : Q * Q) : lex_le a b -> lex_le b c -> lex_le a c.
Proof. unfold lex_le. intros [H1 | [H1 H1']] [H2 | [H2 H2']]; lra. Qed.

Lemma tuple_ltb_le (a b : Q * Q) : Py.tuple_ltb a b = true -> lex_le a b.
Proof.
  unfold Py.tuple_ltb, lex_le.
  destruct (Qeq_bool (fst a) (fst b)) eqn:E; intro H; apply ltb_true in H.
  - apply Qeq_bool_iff in E. right. split; [exact E | lra].
  - left. exact H.
Qed.

Lemma tuple_nltb_le (a b : Q * Q) : Py.tuple_ltb b a = false -> lex_le a b.
Proof.
  unfold Py.tuple_ltb, lex_le.
  destruct (Qeq_bool (fst b) (fst a)) eqn:E; intro H; apply ltb_false in H.
  - apply Qeq_bool_iff in E. right. split; [symmetry; exact E | exact H].
  - apply Qeq_bool_neq in E. left.
    destruct (Qlt_le_dec (fst a) (fst b)) as [Hlt | Hge]; [exact Hlt|].
    exfalso. apply E. lra.
Qed.

Lemma ranked_nil {C : Type} (error rsum : C -> Q) : ranked error rsum [].
Proof. split; constructor. Qed.

Lemma sorted_slice_ranked {C : Type} (error rsum : C -> Q) (l : list C) (n : Z) :
  ranked error rsum
    (Py.slice_to
       (Py.sorted (fun x y => Py.tuple_ltb (error x, rsum x) (error y, rsum y)) l)
       n).
Proof.
  assert (H : StronglySorted
                (fun x y => lex_le (error x, rsum x) (error y, rsum y))
                (Py.sorted
                   (fun x y => Py.tuple_ltb (error x, rsum x) (error y, rsum y))
                   l)).
  { apply sorted_StronglySorted.
    - intros x y z. apply lex_le_trans.
    - intros x y. apply tuple_ltb_le.
    - intros x y. apply tuple_nltb_le. }
  apply (slice_to_StronglySorted _ n) in H.
  split; revert H; apply StronglySorted_impl; unfold lex_le; simpl;
    intros x y Hxy; [|intro]; lra.
Qed.

(** ** Optimizer *)

Lemma init_pool_positive (series : ESeries.t) (rsum_max : Q) (limit : Z)
    (limits : DatasheetLimits.t) :
  pool_positive (Optimizer.init series rsum_max limit limits).
Proof. unfold pool_positive. simpl. apply values_pos. Qed.

Lemma search_two_shape (self : Optimizer.t) (target : Q) (vfunc : vfunc_t)
    (never_exceed : option Q) (tol_for_ne : Q)
    (target_checker : option (Q -> bool)) (l : list TwoResCandidate.t) :
  Optimizer.search_two self target vfunc never_exceed tol_for_ne target_checker
  = Some l ->
  l = [] \/
  exists cands,
    Optimizer.two_candidates self target vfunc never_exceed tol_for_ne
    = Some cands /\
    l = Py.slice_to (Py.sorted Optimizer.two_key_ltb cands) (Optimizer.limit self).
Proof.
  unfold Optimizer.search_two.
  destruct (match target_checker with
            | Some checker => negb (checker target)
            | None => false
            end).
  - intro H. injection H as <-. left. reflexivity.
  - destruct (Optimizer.two_candidates _ _ _ _ _) as [cands|]; [|discriminate].
    intro H. injection H as <-. right. exists cands. split; reflexivity.
Qed.

Lemma search_two_ranked (self : Optimizer.t) (target : Q) (vfunc : vfunc_t)
    (never_exceed : option Q) (tol_for_ne : Q)
    (target_checker : option (Q -> bool)) (l : list TwoResCandidate.t) :
  Optimizer.search_two self target vfunc never_exceed tol_for_ne target_checker
  = Some l ->
  two_ranked l /\
  ((0 <= Optimizer.limit self)%Z ->
   (Z.of_nat (List.length l) <= Optimizer.limit self)%Z).
Proof.
  intro H. apply search_two_shape in H as [-> | (cands & _ & ->)].
  - split; [apply ranked_nil | simpl; lia].
  - split; [apply sorted_slice_ranked | apply slice_to_length].
Qed.

Lemma search_ok_ranked (self : Optimizer.t) (target_prog target_hyst : option Q)
    (l : list ThreeResCandidate.t) :
  Optimizer.search_ok self target_prog target_hyst = Some l ->
  three_ranked l /\
  ((0 <= Optimizer.limit self)%Z ->
   (Z.of_nat (List.length l) <= Optimizer.limit self)%Z).
Proof.
  unfold Optimizer.search_ok.
  destruct (Optimizer.ok_candidates _ _ _) as [cands|]; [|discriminate].
  intro H. injection H as <-.
  split; [apply sorted_slice_ranked | apply slice_to_length].
Qed.

(** *** The searches return *)

Lemma two_body_returns (self : Optimizer.t) (target : Q) (vfunc : vfunc_t)
    (never_exceed : option Q) (tol_for_ne r1 r2 : Q)
    (cands : list TwoResCandidate.t) :
  In vfunc two_res_family -> 0 <= tol_for_ne -> tol_for_ne < 1 ->
  0 < r1 -> 0 < r2 ->
  exists cands',
    Optimizer.two_body self target vfunc never_exceed tol_for_ne r1 cands r2
    = Some cands'.
Proof.
  intros Hf Ht0 Ht1 Hr1 Hr2.
  destruct bias_corners as (Hlo & Hlt & Hth).
  destruct (two_res_sound_family r1 r2 tol_for_ne VBIAS_MIN VBIAS_MAX
              Hr1 Hr2 Ht0 Ht1 Hlo vfunc Hf) as (v_min & v_max & Hb & Hall).
  destruct (Hall r1 r2 VBIAS_TYP
              (within_tol_nominal r1 tol_for_ne Hr1 Ht0)
              (within_tol_nominal r2 tol_for_ne Hr2 Ht0) Hlt Hth)
    as (v & Hv & _).
  unfold Optimizer.two_body.
  destruct (Py.gtb (r1 + r2) (Optimizer.rsum_max self)); [eauto|].
  rewrite Hv. destruct never_exceed as [ne|]; [|eauto].
  rewrite Hb. destruct (Py.gtb v_max (ne + 1e-12)); eauto.
Qed.

Lemma two_candidates_returns (self : Optimizer.t) (target : Q) (vfunc : vfunc_t)
    (never_exceed : option Q) (tol_for_ne : Q) :
  pool_positive self ->
  In vfunc two_res_family -> 0 <= tol_for_ne -> tol_for_ne < 1 ->
  exists cands,
    Optimizer.two_candidates self target vfunc never_exceed tol_for_ne
    = Some cands.
Proof.
  intros Hpool Hf Ht0 Ht1. unfold Optimizer.two_candidates.
  destruct (for_each_total (fun _ => True)
              (fun cands r1 =>
                 Py.for_each (Optimizer.pool self)
                   (Optimizer.two_body self target vfunc never_exceed
                      tol_for_ne r1) cands)
              (Optimizer.pool self)) with (s := @nil TwoResCandidate.t)
    as (t & Ht & _); [|exact I|eauto].
  intros s r1 Hr1 _.
  apply (for_each_total (fun _ => True)); [|exact I].
  intros s' r2 Hr2 _.
  destruct (two_body_returns self target vfunc never_exceed tol_for_ne r1 r2 s'
              Hf Ht0 Ht1 (Hpool r1 Hr1) (Hpool r2 Hr2)) as (c & Hc).
  eauto.
Qed.

Lemma search_two_returns (self : Optimizer.t) (target : Q) (vfunc : vfunc_t)
    (never_exceed : option Q) (tol_for_ne : Q)
    (target_checker : option (Q -> bool)) :
  pool_positive self ->
  In vfunc two_res_family -> 0 <= tol_for_ne -> tol_for_ne < 1 ->
  exists l,
    Optimizer.search_two self target vfunc never_exceed tol_for_ne target_checker
    = Some l.
Proof.
  intros Hpool Hf Ht0 Ht1. unfold Optimizer.search_two.
  destruct (match target_checker with
            | Some checker => negb (checker target)
            | None => false
            end); [eauto|].
  destruct (two_candidates_returns self target vfunc never_exceed tol_for_ne
              Hpool Hf Ht0 Ht1) as (cands & ->).
  eauto.
Qed.

(** What the candidate loop of [search_ok] keeps true of its list. *)
Lemma ok_candidates_total (P : list ThreeResCandidate.t -> Prop)
    (self : Optimizer.t) (target_prog target_hyst : option Q) :
  pool_positive self ->
  P [] ->
  (forall r1 r2 r3 vp cands cands',
      P cands ->
      Calculator.vbat_ok_prog r1 r2 VBIAS_TYP = Some vp ->
      Optimizer.ok_body self target_prog target_hyst r1 r2 vp cands r3
      = Some cands' ->
      P cands') ->
  exists cands,
    Optimizer.ok_candidates self target_prog target_hyst = Some cands /\
    P cands.
Proof.
  intros Hpool Hnil Hstep. unfold Optimizer.ok_candidates.
  apply (for_each_total P); [|exact Hnil].
  intros s1 r1 Hr1 Hs1.
  apply (for_each_total P); [|exact Hs1].
  intros s2 r2 Hr2 Hs2.
  pose proof (vbat_ok_prog_pos r1 r2 VBIAS_TYP (Hpool r1 Hr1)) as Hvp.
  rewrite Hvp.
  apply (for_each_total P); [|exact Hs2].
  intros s3 r3 Hr3 Hs3.
  assert (E : exists c,
             Optimizer.ok_body self target_prog target_hyst r1 r2
               (VBIAS_TYP * (1.0 + r2 / r1)) s3 r3 = Some c).
  { unfold Optimizer.ok_body.
    destruct (Py.gtb _ _); [eauto|].
    rewrite (vbat_ok_hyst_pos r1 r2 r3 VBIAS_TYP (Hpool r1 Hr1)).
    destruct (negb _); [eauto|].
    destruct target_prog, target_hyst; eauto. }
  destruct E as (c & Hc). exists c. split; [exact Hc|].
  apply (Hstep r1 r2 r3 _ s3 c Hs3 Hvp Hc).
Qed.

Lemma search_ok_returns (self : Optimizer.t) (target_prog target_hyst : option Q) :
  pool_positive self ->
  exists l, Optimizer.search_ok self target_prog target_hyst = Some l.
Proof.
  intro Hpool. unfold Optimizer.search_ok.
  destruct (ok_candidates_total (fun _ => True) self target_prog target_hyst
              Hpool I) as (cands & -> & _); [trivial|].
  eauto.
Qed.

(** C3, as the code has it: the list either search returns is sorted
    non-decreasing by error and, among equal errors, non-decreasing by
    resistance sum; for a limit >= 0 it has at most [limit] elements.  Both
    searches do return a list over a pool of positive values (search_two:
    for a transfer function of the family and a never-exceed tolerance in
    [0, 1)). *)
Theorem search_results_ranked :
  (forall self target vfunc never_exceed tol_for_ne target_checker l,
      Optimizer.search_two self target vfunc never_exceed tol_for_ne
        target_checker = Some l ->
      two_ranked l /\
      ((0 <= Optimizer.limit self)%Z -> within_limit (Optimizer.limit self) l)) /\
  (forall self target_prog target_hyst l,
      Optimizer.search_ok self target_prog target_hyst = Some l ->
      three_ranked l /\
      ((0 <= Optimizer.limit self)%Z -> within_limit (Optimizer.limit self) l)) /\
  (forall self target vfunc never_exceed tol_for_ne target_checker,
      pool_positive self ->
      In vfunc two_res_family -> 0 <= tol_for_ne -> tol_for_ne < 1 ->
      exists l,
        Optimizer.search_two self target vfunc never_exceed tol_for_ne
          target_checker = Some l) /\
  (forall self target_prog target_hyst,
      pool_positive self ->
      exists l, Optimizer.search_ok self target_prog target_hyst = Some l).
Proof.
  split; [|split; [|split]].
  - intros. apply (search_two_ranked self target vfunc never_exceed tol_for_ne
                     target_checker l). assumption.
  - intros. apply (search_ok_ranked self target_prog target_hyst l). assumption.
  - intros. apply search_two_returns; assumption.
  - intros. apply search_ok_returns; assumption.
Qed.

Lemma search_results_ranked_witness :
  exists l,
    Optimizer.search_two (example_optimizer 2.2e6 4) 3.3 Calculator.vout None 0.01
      (Some (DatasheetLimits.allow_vout_target example_limits)) = Some l /\
    two_ranked l /\
    ((0 <= 4)%Z -> within_limit 4 l).
Proof.
  eexists. split; [vm_compute; reflexivity|].
  apply (proj1 search_results_ranked
           (example_optimizer 2.2e6 4) 3.3 Calculator.vout None 0.01
           (Some (DatasheetLimits.allow_vout_target example_limits))).
  vm_compute. reflexivity.
Defined.

(** C3 as stated, for every limit, fails on a negative one: [cands[:-1]]
    is all candidates but the last.  Of the six pairs of the 24-value
    series at decade 6 whose sum stays within 2.2e6, five are returned. *)
Lemma search_two_negative_limit :
  exists l,
    Optimizer.search_two (example_optimizer 2.2e6 (-1)) 3.3 Calculator.vout
      None 0.01 None = Some l /\
    List.length l = 5%nat /\
    ~ within_limit (Optimizer.limit (example_optimizer 2.2e6 (-1))) l.
Proof.
  eexists. split; [vm_compute; reflexivity|].
  split; [reflexivity|].
  unfold within_limit. simpl. lia.
Qed.

(** *** The relationship filter of [search_ok] *)

Lemma ok_body_keeps (self : Optimizer.t) (target_prog target_hyst : option Q)
    (r1 r2 vp r3 : Q) (cands cands' : list ThreeResCandidate.t) :
  Forall (relationships_ok (Optimizer.limits self)) cands ->
  Optimizer.ok_body self target_prog target_hyst r1 r2 vp cands r3 = Some cands' ->
  Forall (relationships_ok (Optimizer.limits self)) cands'.
Proof.
  intro Hc. unfold Optimizer.ok_body.
  destruct (Py.gtb _ _); [intro H; injection H as <-; exact Hc|].
  destruct (Calculator.vbat_ok_hyst r1 r2 r3 VBIAS_TYP) as [vh|]; [|discriminate].
  destruct (DatasheetLimits.ok_relationships (Optimizer.limits self) vp vh) eqn:E;
    simpl; [|intro H; injection H as <-; exact Hc].
  assert (Hnew : forall err s,
             Forall (relationships_ok (Optimizer.limits self))
               (cands ++ [ThreeResCandidate.mk err vp vh r1 r2 r3 s])).
  { intros err s. apply Forall_app. split; [exact Hc|].
    constructor; [exact E | constructor]. }
  destruct target_prog, target_hyst; intro H; injection H as <-;
    solve [apply Hnew | exact Hc].
Qed.

Lemma ok_candidates_keep (self : Optimizer.t) (target_prog target_hyst : option Q)
    (cands : list ThreeResCandidate.t) :
  Optimizer.ok_candidates self target_prog target_hyst = Some cands ->
  Forall (relationships_ok (Optimizer.limits self)) cands.
Proof.
  unfold Optimizer.ok_candidates.
  apply (for_each_inv (Forall (relationships_ok (Optimizer.limits self))));
    [|constructor].
  intros s1 r1 s1' _ Hs1.
  apply (for_each_inv (Forall (relationships_ok (Optimizer.limits self))));
    [|exact Hs1].
  intros s2 r2 s2' _ Hs2.
  destruct (Calculator.vbat_ok_prog r1 r2 VBIAS_TYP) as [vp|]; [|discriminate].
  apply (for_each_inv (Forall (relationships_ok (Optimizer.limits self))));
    [|exact Hs2].
  intros s3 r3 s3' _ Hs3. apply ok_body_keeps, Hs3.
Qed.

(** C4: every record of the list [search_ok] returns satisfies
    [ok_relationships(v_prog, v_hyst)] for the configured floor and
    ceiling, whatever the pool, ceiling, limit, rules and targets; and over
    a pool of positive values [search_ok] returns a list. *)
Theorem search_ok_relationships
    (self : Optimizer.t) (target_prog target_hyst : option Q) :
  (forall l,
      Optimizer.search_ok self target_prog target_hyst = Some l ->
      forall c, In c l -> relationships_ok (Optimizer.limits self) c) /\
  (pool_positive self ->
   exists l, Optimizer.search_ok self target_prog target_hyst = Some l).
Proof.
  split; [|apply search_ok_returns].
  intros l H c Hc. unfold Optimizer.search_ok in H.
  destruct (Optimizer.ok_candidates self target_prog target_hyst)
    as [cands|] eqn:E; [|discriminate].
  injection H as <-.
  apply In_slice_to, In_sorted in Hc.
  apply ok_candidates_keep in E. rewrite Forall_forall in E. apply E, Hc.
Qed.

Lemma search_ok_relationships_witness :
  exists l,
    Optimizer.search_ok (example_optimizer 3.3e6 4) (Some 3.5) (Some 3.7)
    = Some l /\
    List.length l = 4%nat /\
    forall c, In c l -> relationships_ok example_limits c.
Proof.
  eexists. split; [vm_compute; reflexivity|].
  split; [reflexivity|].
  apply (proj1 (search_ok_relationships (example_optimizer 3.3e6 4)
                  (Some 3.5) (Some 3.7))).
  vm_compute. reflexivity.
Defined.

(** *** The never-exceed filter of [search_two] *)

Lemma two_body_monotone (self : Optimizer.t) (target : Q) (vfunc : vfunc_t)
    (ne' ne tol_for_ne r1 r2 : Q) (s1 s2 s1' : list TwoResCandidate.t) :
  ne' <= ne -> incl s1 s2 ->
  Optimizer.two_body self target vfunc (Some ne') tol_for_ne r1 s1 r2 = Some s1' ->
  exists s2',
    Optimizer.two_body self target vfunc (Some ne) tol_for_ne r1 s2 r2 = Some s2' /\
    incl s1' s2'.
Proof.
  intros Hne Hincl. unfold Optimizer.two_body.
  destruct (Py.gtb _ _).
  { intro H. injection H as <-. eauto. }
  destruct (vfunc r1 r2 VBIAS_TYP) as [v|]; [|discriminate].
  destruct (WorstCase.two_res_bounds _ _ _ _ _) as [[vmin vmax]|]; [|discriminate].
  destruct (Py.gtb vmax (ne' + 1e-12)) eqn:E'; intro H; injection H as <-.
  - destruct (Py.gtb vmax (ne + 1e-12)); eexists; (split; [reflexivity|]).
    + exact Hincl.
    + apply incl_appl, Hincl.
  - apply gtb_false in E'.
    assert (E : Py.gtb vmax (ne + 1e-12) = false) by (apply gtb_false; lra).
    rewrite E. eexists. split; [reflexivity|].
    apply incl_app; [apply incl_appl, Hincl | apply incl_appr, incl_refl].
Qed.

Lemma search_two_admitted (self : Optimizer.t) (target : Q) (vfunc : vfunc_t)
    (never_exceed : option Q) (tol_for_ne : Q)
    (target_checker : option (Q -> bool)) (cands : list TwoResCandidate.t) :
  admitted target_checker target ->
  Optimizer.two_candidates self target vfunc never_exceed tol_for_ne = Some cands ->
  Optimizer.search_two self target vfunc never_exceed tol_for_ne target_checker
  = Some (two_result self cands).
Proof.
  intros Ha Hc. unfold Optimizer.search_two. rewrite Hc.
  destruct target_checker as [checker|]; [|reflexivity].
  simpl in Ha. rewrite Ha. reflexivity.
Qed.

(** C5: two invocations of [search_two] that differ in the never-exceed
    ceiling only, ceiling' <= ceiling.  When the candidate loops under
    ceiling' end with the list l', the loops under ceiling end with a list
    l that holds every candidate of l' (hence every (bottom, top) pair of
    it); l' and l are the candidates the two invocations sort and
    truncate. *)
Theorem never_exceed_monotone
    (self : Optimizer.t) (target : Q) (vfunc : vfunc_t) (tol_for_ne : Q)
    (ceiling' ceiling : Q) (l' : list TwoResCandidate.t) :
  ceiling' <= ceiling ->
  Optimizer.two_candidates self target vfunc (Some ceiling') tol_for_ne = Some l' ->
  exists l,
    Optimizer.two_candidates self target vfunc (Some ceiling) tol_for_ne = Some l /\
    incl l' l /\
    incl (accepted_pairs l') (accepted_pairs l) /\
    forall target_checker,
      admitted target_checker target ->
      Optimizer.search_two self target vfunc (Some ceiling') tol_for_ne
        target_checker = Some (two_result self l') /\
      Optimizer.search_two self target vfunc (Some ceiling) tol_for_ne
        target_checker = Some (two_result self l).
Proof.
  intros Hne H. unfold Optimizer.two_candidates in *.
  destruct (for_each_rel (@incl TwoResCandidate.t)
              (fun cands r1 =>
                 Py.for_each (Optimizer.pool self)
                   (Optimizer.two_body self target vfunc (Some ceiling')
                      tol_for_ne r1) cands)
              (fun cands r1 =>
                 Py.for_each (Optimizer.pool self)
                   (Optimizer.two_body self target vfunc (Some ceiling)
                      tol_for_ne r1) cands)
              (Optimizer.pool self)) with (s1 := @nil TwoResCandidate.t)
                                          (s2 := @nil TwoResCandidate.t)
                                          (t1 := l')
    as (l & Hl & Hincl).
  - intros s1 s2 r1 s1' _ HR. apply for_each_rel; [|exact HR].
    intros a b r2 a' _ Hab. apply two_body_monotone; assumption.
  - apply incl_refl.
  - exact H.
  - exists l. split; [exact Hl|]. split; [exact Hincl|].
    split; [unfold accepted_pairs; apply incl_map, Hincl|].
    intros target_checker Ha. split; apply search_two_admitted; assumption.
Qed.

Lemma never_exceed_monotone_witness :
  exists l' l,
    Optimizer.two_candidates (example_optimizer 7e6 4) 4.2 Calculator.vbat_ov
      (Some 4.2) 0.01 = Some l' /\
    Optimizer.two_candidates (example_optimizer 7e6 4) 4.2 Calculator.vbat_ov
      (Some 4.3) 0.01 = Some l /\
    incl l' l /\
    incl (accepted_pairs l') (accepted_pairs l) /\
    (List.length l' < List.length l)%nat.
Proof.
  assert (Hc : 4.2 <= 4.3) by (vm_compute; discriminate).
  eexists. 
  destruct (never_exceed_monotone (example_optimizer 7e6 4) 4.2
              Calculator.vbat_ov 0.01 4.2 4.3 _ Hc ltac:(vm_compute; reflexivity))
    as (l & Hl & H1 & H2 & _).
  exists l. split; [vm_compute; reflexivity|].
  split; [exact Hl|]. split; [exact H1|]. split; [exact H2|].
  vm_compute in Hl. injection Hl as <-. vm_compute. lia.
Defined.

(** *** Degenerate configurations *)

Lemma search_empty_pool (self : Optimizer.t) :
  Optimizer.pool self = [] ->
  (forall target vfunc never_exceed tol_for_ne target_checker,
      Optimizer.search_two self target vfunc never_exceed tol_for_ne
        target_checker = Some []) /\
  (forall target_prog target_hyst,
      Optimizer.search_ok self target_prog target_hyst = Some []).
Proof.
  intro H. split; intros.
  - unfold Optimizer.search_two, Optimizer.two_candidates. rewrite H. simpl.
    rewrite slice_to_nil. destruct target_checker as [chk|]; [|reflexivity].
    destruct (negb (chk target)); reflexivity.
  - unfold Optimizer.search_ok, Optimizer.ok_candidates. rewrite H. simpl.
    rewrite slice_to_nil. reflexivity.
Qed.

Lemma search_ok_no_target (self : Optimizer.t) :
  pool_positive self -> Optimizer.search_ok self None None = Some [].
Proof.
  intro Hpool. unfold Optimizer.search_ok.
  destruct (ok_candidates_total (fun cands => cands = []) self None None
              Hpool eq_refl) as (cands & -> & ->).
  - intros r1 r2 r3 vp cands cands' -> _. unfold Optimizer.ok_body.
    destruct (Py.gtb _ _); [congruence|].
    destruct (Calculator.vbat_ok_hyst _ _ _ _); [|discriminate].
    destruct (negb _); congruence.
  - simpl. rewrite slice_to_nil. reflexivity.
Qed.



(** * Further properties *)

(** ** Calculator: errors, relations, monotonicity *)

Lemma truediv_None (x y : Q) : Py.truediv x y = None <-> y == 0.
Proof.
  unfold Py.truediv. destruct (Qeq_bool y 0) eqn:E.
  - apply Qeq_bool_iff in E. tauto.
  - apply Qeq_bool_neq in E. split; [discriminate | contradiction].
Qed.

(** X1: each transfer function raises ZeroDivisionError exactly when the
    bottom resistor is zero, whatever the other arguments are. *)
Theorem transfer_functions_raise (r1 r2 r3 vbias : Q) :
  (Calculator.vout r1 r2 vbias = None <-> r1 == 0) /\
  (Calculator.vbat_ov r1 r2 vbias = None <-> r1 == 0) /\
  (Calculator.vbat_ok_prog r1 r2 vbias = None <-> r1 == 0) /\
  (Calculator.vbat_ok_hyst r1 r2 r3 vbias = None <-> r1 == 0).
Proof.
  unfold Calculator.vout, Calculator.vbat_ov, Calculator.vbat_ok_prog,
    Calculator.vbat_ok_hyst.
  rewrite <- (truediv_None r2 r1) at 1 2 3.
  rewrite <- (truediv_None (r2 + r3) r1).
  repeat split; try (destruct (Py.truediv _ _); [discriminate | reflexivity]);
    destruct (Py.truediv _ _); intro H; solve [reflexivity | discriminate].
Qed.

Lemma vout_nonzero (r1 r2 vbias : Q) :
  ~ r1 == 0 -> Calculator.vout r1 r2 vbias = Some (vbias * (1.0 + r2 / r1)).
Proof.
  intro H. unfold Calculator.vout. rewrite truediv_nonzero by exact H.
  reflexivity.
Qed.

Lemma vbat_ov_nonzero (r1 r2 vbias : Q) :
  ~ r1 == 0 ->
  Calculator.vbat_ov r1 r2 vbias = Some (1.5 * vbias * (1.0 + r2 / r1)).
Proof.
  intro H. unfold Calculator.vbat_ov. rewrite truediv_nonzero by exact H.
  reflexivity.
Qed.

Lemma vbat_ok_prog_nonzero (r1 r2 vbias : Q) :
  ~ r1 == 0 ->
  Calculator.vbat_ok_prog r1 r2 vbias = Some (vbias * (1.0 + r2 / r1)).
Proof.
  intro H. unfold Calculator.vbat_ok_prog. rewrite truediv_nonzero by exact H.
  reflexivity.
Qed.

Lemma vbat_ok_hyst_nonzero (r1 r2 r3 vbias : Q) :
  ~ r1 == 0 ->
  Calculator.vbat_ok_hyst r1 r2 r3 vbias
  = Some (vbias * (1.0 + (r2 + r3) / r1)).
Proof.
  intro H. unfold Calculator.vbat_ok_hyst. rewrite truediv_nonzero by exact H.
  reflexivity.
Qed.



Lemma div_lt_num (n n' d : Q) : 0 < d -> n < n' -> n / d < n' / d.
Proof.
  intros Hd Hn. apply Qlt_shift_div_l; [exact Hd|].
  assert (E : n / d * d == n) by (field; lra). lra.
Qed.

Lemma div_lt_den (n d d' : Q) : 0 < n -> 0 < d' -> d' < d -> n / d < n / d'.
Proof.
  intros Hn Hd' Hd. apply Qlt_shift_div_l; [exact Hd'|].
  assert (E : n / d * d == n) by (field; lra).
  assert (0 < n / d) by (apply Qlt_shift_div_l; lra).
  nra.
Qed.



(** ** WorstCase: errors, nesting, tightness *)

Lemma family_raises (vfunc : vfunc_t) (a b c : Q) :
  In vfunc two_res_family -> (vfunc a b c = None <-> a == 0).
Proof.
  intros [<- | [<- | [<- | []]]];
    [unfold Calculator.vout | unfold Calculator.vbat_ov
     | unfold Calculator.vbat_ok_prog];
    rewrite <- (truediv_None b a); destruct (Py.truediv b a);
    split; intro H; solve [reflexivity | discriminate].
Qed.

Lemma hyst_raises (a b c d : Q) :
  Calculator.vbat_ok_hyst a b c d = None <-> a == 0.
Proof.
  unfold Calculator.vbat_ok_hyst.
  rewrite <- (truediv_None (b + c) a). destruct (Py.truediv (b + c) a);
    split; intro H; solve [reflexivity | discriminate].
Qed.

Lemma corner_zero (r tol : Q) :
  (r * (1 + tol) == 0 \/ r * (1 - tol) == 0) <->
  (r == 0 \/ tol == 1 \/ tol == -1).
Proof.
  split.
  - intros [H | H]; apply Qmult_integral in H; destruct H as [H | H];
      solve [left; exact H | right; left; lra | right; right; lra].
  - intros [H | [H | H]].
    + left. rewrite H. ring.
    + right. rewrite H. ring.
    + left. rewrite H. ring.
Qed.

Lemma two_res_bounds_None (vfunc : vfunc_t) (r1 r2 tol : Q) (vbounds : Q * Q) :
  In vfunc two_res_family ->
  (WorstCase.two_res_bounds vfunc r1 r2 tol vbounds = None <->
   r1 == 0 \/ tol == 1 \/ tol == -1).
Proof.
  intro Hf. rewrite <- corner_zero.
  unfold WorstCase.two_res_bounds. cbn [fst snd].
  rewrite <- (family_raises vfunc (r1 * (1 + tol)) (r2 * (1 - tol))
                (fst vbounds) Hf).
  rewrite <- (family_raises vfunc (r1 * (1 - tol)) (r2 * (1 + tol))
                (snd vbounds) Hf).
  destruct (vfunc (r1 * (1 + tol)) _ _); destruct (vfunc (r1 * (1 - tol)) _ _);
    split; try discriminate; try tauto;
    intros [H | H]; discriminate.
Qed.

Lemma ok_bounds_None (r1 r2 r3 tol : Q) (vbounds : Q * Q) :
  WorstCase.ok_bounds r1 r2 r3 tol vbounds = None <->
  r1 == 0 \/ tol == 1 \/ tol == -1.
Proof.
  rewrite <- corner_zero. unfold WorstCase.ok_bounds.
  pose proof (hyst_raises (r1 * (1 + tol)) (r2 * (1 - tol)) (r3 * (1 - tol))
                (fst vbounds)) as H1.
  pose proof (hyst_raises (r1 * (1 - tol)) (r2 * (1 + tol)) (r3 * (1 + tol))
                (snd vbounds)) as H2.
  pose proof (family_raises Calculator.vbat_ok_prog (r1 * (1 + tol))
                (r2 * (1 - tol)) (fst vbounds)
                ltac:(right; right; left; reflexivity)) as H3.
  pose proof (family_raises Calculator.vbat_ok_prog (r1 * (1 - tol))
                (r2 * (1 + tol)) (snd vbounds)
                ltac:(right; right; left; reflexivity)) as H4.
  destruct (Calculator.vbat_ok_prog (r1 * (1 + tol)) _ _);
    destruct (Calculator.vbat_ok_prog (r1 * (1 - tol)) _ _);
    destruct (Calculator.vbat_ok_hyst (r1 * (1 + tol)) _ _ _);
    destruct (Calculator.vbat_ok_hyst (r1 * (1 - tol)) _ _ _);
    split; try discriminate; try tauto.
  all: try (intros [H | H];
            solve [apply H1 in H; discriminate | apply H2 in H; discriminate
                  | apply H3 in H; discriminate | apply H4 in H; discriminate]).
  all: intros _.
  all: first [left; apply H3; reflexivity | right; apply H4; reflexivity
             | left; apply H1; reflexivity | right; apply H2; reflexivity].
Qed.


Lemma interval_inside_two (vfunc : vfunc_t) (r1 r2 tol tol' v_lo v_hi : Q) :
  In vfunc two_res_family ->
  0 < r1 -> 0 < r2 -> 0 <= tol -> tol <= tol' -> tol' < 1 ->
  0 <= v_lo -> 0 <= v_hi ->
  interval_inside
    (WorstCase.two_res_bounds vfunc r1 r2 tol (v_lo, v_hi))
    (WorstCase.two_res_bounds vfunc r1 r2 tol' (v_lo, v_hi)).
Proof.
  intros Hf Hr1 Hr2 Ht0 Htt Ht1 Hlo Hhi.
  assert (P1 : 0 < r1 * (1 - tol)) by nra.
  assert (P2 : 0 < r1 * (1 + tol)) by nra.
  assert (P3 : 0 < r1 * (1 - tol')) by nra.
  assert (P4 : 0 < r1 * (1 + tol')) by nra.
  assert (N1 : 0 <= r2 * (1 - tol')) by nra.
  assert (N2 : 0 <= r2 * (1 + tol)) by nra.
  unfold interval_inside, WorstCase.two_res_bounds. cbn [fst snd].
  destruct Hf as [<- | [<- | [<- | []]]];
    rewrite ?vout_pos, ?vbat_ov_pos, ?vbat_ok_prog_pos by assumption;
    do 4 eexists; (split; [reflexivity|]); (split; [reflexivity|]);
    split; apply ratio_mono; solve [assumption | lra | nra].
Qed.

Lemma interval_inside_ok (r1 r2 r3 tol tol' v_lo v_hi : Q) :
  0 < r1 -> 0 < r2 -> 0 < r3 -> 0 <= tol -> tol <= tol' -> tol' < 1 ->
  0 <= v_lo -> 0 <= v_hi ->
  exists p h p' h',
    WorstCase.ok_bounds r1 r2 r3 tol (v_lo, v_hi) = Some (p, h) /\
    WorstCase.ok_bounds r1 r2 r3 tol' (v_lo, v_hi) = Some (p', h') /\
    interval_inside (Some p) (Some p') /\ interval_inside (Some h) (Some h').
Proof.
  intros Hr1 Hr2 Hr3 Ht0 Htt Ht1 Hlo Hhi.
  assert (P1 : 0 < r1 * (1 - tol)) by nra.
  assert (P2 : 0 < r1 * (1 + tol)) by nra.
  assert (P3 : 0 < r1 * (1 - tol')) by nra.
  assert (P4 : 0 < r1 * (1 + tol')) by nra.
  assert (N1 : 0 <= r2 * (1 - tol')) by nra.
  assert (N2 : 0 <= r2 * (1 + tol)) by nra.
  assert (N3 : 0 <= r3 * (1 - tol')) by nra.
  assert (N4 : 0 <= r3 * (1 + tol)) by nra.
  unfold WorstCase.ok_bounds. cbn [fst snd].
  rewrite !vbat_ok_prog_pos, !vbat_ok_hyst_pos by assumption.
  do 4 eexists. split; [reflexivity|]. split; [reflexivity|].
  unfold interval_inside.
  split; do 4 eexists; (split; [reflexivity|]); (split; [reflexivity|]);
    split; apply ratio_mono; solve [assumption | lra | nra].
Qed.



Lemma corners_within (r tol : Q) :
  0 < r -> 0 <= tol ->
  within_tol r tol (r * (1 + tol)) /\ within_tol r tol (r * (1 - tol)).
Proof. intros Hr Ht. unfold within_tol. repeat split; nra. Qed.



(** ** Loops that append *)

Section Appends.
Context {A C : Type}.

Lemma appends_continue : appends (fun s : list C => Some s).
Proof. intro s. simpl. rewrite app_nil_r. reflexivity. Qed.

Lemma appends_one (c : C) : appends (fun s => Some (s ++ [c])).
Proof. intro s. reflexivity. Qed.

Lemma appends_raise : appends (fun _ : list C => None).
Proof. intro s. reflexivity. Qed.

Lemma appends_bind {B : Type} (o : option B)
    (step : B -> list C -> option (list C)) :
  (forall v, appends (step v)) ->
  appends (fun s => match o with Some v => step v s | None => None end).
Proof. intros H s. destruct o as [v|]; [apply H | reflexivity]. Qed.

Lemma appends_for_each (body : list C -> A -> option (list C)) (l : list A) :
  (forall x, appends (fun s => body s x)) ->
  appends (fun s => Py.for_each l body s).
Proof.
  intro H. induction l as [|x l IH]; intro s; simpl.
  - rewrite app_nil_r. reflexivity.
  - rewrite (H x s). destruct (body [] x) as [ys|]; simpl; [|reflexivity].
    rewrite (IH (s ++ ys)), (IH ys).
    destruct (Py.for_each l body []) as [zs|]; simpl; [|reflexivity].
    rewrite app_assoc. reflexivity.
Qed.

(** The list such a loop builds from the empty list holds what its
    iterations append, and nothing else. *)
Lemma for_each_In (body : list C -> A -> option (list C)) (l : list A) :
  (forall x, appends (fun s => body s x)) ->
  forall zs, Py.for_each l body [] = Some zs ->
  forall c, In c zs <->
            exists x ys, In x l /\ body [] x = Some ys /\ In c ys.
Proof.
  intro H. induction l as [|x l IH]; intros zs Hz c; simpl in Hz.
  - injection Hz as <-. split; [intros [] | intros (x & ys & [] & _)].
  - destruct (body [] x) as [ys|] eqn:E; [|discriminate].
    rewrite (appends_for_each body l H ys) in Hz.
    destruct (Py.for_each l body []) as [zs'|] eqn:E'; [|discriminate].
    simpl in Hz. injection Hz as <-.
    rewrite in_app_iff, (IH zs' eq_refl c). split.
    + intros [Hc | (y & ys' & Hy & Ey & Hc)].
      * exists x, ys. simpl. auto.
      * exists y, ys'. simpl. auto.
    + intros (y & ys' & [<- | Hy] & Ey & Hc).
      * left. congruence.
      * right. exists y, ys'. auto.
Qed.
End Appends.

(** ** Sorting keeps the records and is stable *)

Section SortMore.
Context {A : Type} (lt : A -> A -> bool).

Lemma insert_Permutation (x : A) (l : list A) :
  Permutation (Py.insert lt x l) (x :: l).
Proof.
  induction l as [|y l IH]; simpl; [reflexivity|].
  destruct (lt y x); [|reflexivity].
  rewrite IH. apply perm_swap.
Qed.

Lemma sorted_Permutation (l : list A) : Permutation (Py.sorted lt l) l.
Proof.
  induction l as [|x l IH]; simpl; [reflexivity|].
  rewrite insert_Permutation, IH. reflexivity.
Qed.

(** Stability: the records of one class keep their order, when no record
    of the class is strictly greater than another record of the class. *)
Variable same : A -> bool.
Hypothesis same_not_below :
  forall x y, lt y x = true -> same x = true -> same y = false.

Lemma filter_insert (x : A) (l : list A) :
  filter same (Py.insert lt x l) = filter same (x :: l).
Proof.
  induction l as [|y l IH]; simpl; [reflexivity|].
  destruct (lt y x) eqn:E; simpl; [|reflexivity].
  rewrite IH. simpl. destruct (same x) eqn:Ex; [|reflexivity].
  rewrite (same_not_below x y E Ex). reflexivity.
Qed.

Lemma filter_sorted (l : list A) : filter same (Py.sorted lt l) = filter same l.
Proof.
  induction l as [|x l IH]; simpl; [reflexivity|].
  rewrite filter_insert. simpl. rewrite IH. reflexivity.
Qed.
End SortMore.

Lemma StronglySorted_app_inv {A : Type} (R : A -> A -> Prop) (l1 l2 : list A) :
  StronglySorted R (l1 ++ l2) ->
  forall x y, In x l1 -> In y l2 -> R x y.
Proof.
  induction l1 as [|a l1 IH]; simpl; intros H x y Hx Hy; [destruct Hx|].
  apply StronglySorted_inv in H as [Hs Ha].
  destruct Hx as [<- | Hx]; [|apply IH; assumption].
  rewrite Forall_forall in Ha. apply Ha, in_or_app. right. exact Hy.
Qed.

Lemma slice_to_prefix {A : Type} (l : list A) (n : Z) :
  exists rest, l = Py.slice_to l n ++ rest.
Proof.
  unfold Py.slice_to. destruct (n <? 0)%Z; eexists; symmetry; apply firstn_skipn.
Qed.

Lemma slice_to_nonneg_length {A : Type} (l : list A) (n : Z) :
  (0 <= n)%Z ->
  List.length (Py.slice_to l n) = Nat.min (Z.to_nat n) (List.length l).
Proof.
  intro H. unfold Py.slice_to.
  destruct (n <? 0)%Z eqn:E; [apply Z.ltb_lt in E; lia|].
  apply length_firstn.
Qed.

Lemma key_sorted {C : Type} (key : C -> Q * Q) (l : list C) :
  StronglySorted (fun x y => lex_le (key x) (key y))
    (Py.sorted (fun x y => Py.tuple_ltb (key x) (key y)) l).
Proof.
  apply sorted_StronglySorted.
  - intros x y z. apply lex_le_trans.
  - intros x y. apply tuple_ltb_le.
  - intros x y. apply tuple_nltb_le.
Qed.

Lemma sorted_slice_top {C : Type} (key : C -> Q * Q) (limit : Z) (l : list C) :
  top_of key limit l
    (Py.slice_to (Py.sorted (fun x y => Py.tuple_ltb (key x) (key y)) l) limit).
Proof.
  set (srt := Py.sorted (fun x y => Py.tuple_ltb (key x) (key y)) l).
  destruct (slice_to_prefix srt limit) as (rest & Hrest).
  exists rest. split; [|split].
  - rewrite <- Hrest. symmetry. apply sorted_Permutation.
  - apply StronglySorted_app_inv. rewrite <- Hrest. apply key_sorted.
  - intro H. rewrite slice_to_nonneg_length by exact H. unfold srt.
    rewrite (Permutation_length (sorted_Permutation _ l)). reflexivity.
Qed.

(** The first record of a non-empty result ranks before every candidate. *)
Lemma top_of_best {C : Type} (key : C -> Q * Q) (limit : Z)
    (cands result : list C) :
  top_of key limit cands result ->
  StronglySorted (fun x y => lex_le (key x) (key y)) result ->
  forall best tl, result = best :: tl ->
  forall c, In c cands -> lex_le (key best) (key c).
Proof.
  intros (rest & Hp & Hr & _) Hs best tl -> c Hc.
  apply (Permutation_in _ Hp) in Hc. apply in_app_or in Hc.
  destruct Hc as [[<- | Hc] | Hc].
  - right. split; [reflexivity | apply Qle_refl].
  - apply StronglySorted_inv in Hs as [_ Hb].
    rewrite Forall_forall in Hb. apply Hb, Hc.
  - apply Hr; [left; reflexivity | exact Hc].
Qed.

Lemma tuple_ltb_not_same (a b k : Q * Q) :
  Py.tuple_ltb b a = true ->
  Qeq_bool (fst a) (fst k) && Qeq_bool (snd a) (snd k) = true ->
  Qeq_bool (fst b) (fst k) && Qeq_bool (snd b) (snd k) = false.
Proof.
  unfold Py.tuple_ltb. intros Hlt Ha.
  apply andb_true_iff in Ha as [Ha1 Ha2].
  apply Qeq_bool_iff in Ha1, Ha2.
  apply andb_false_iff.
  destruct (Qeq_bool (fst b) (fst a)) eqn:E; apply ltb_true in Hlt.
  - right. apply not_true_is_false. intro H. apply Qeq_bool_iff in H. lra.
  - left. apply not_true_is_false. intro H. apply Qeq_bool_iff in H. lra.
Qed.
Lemma for_each_each_returns {A C : Type}
    (body : list C -> A -> option (list C)) (l : list A) :
  (forall x, appends (fun s => body s x)) ->
  forall zs, Py.for_each l body [] = Some zs ->
  forall x, In x l -> exists ys, body [] x = Some ys.
Proof.
  intro H. induction l as [|y l IH]; intros zs Hz x Hx; simpl in Hz;
    [destruct Hx|].
  destruct (body [] y) as [ys|] eqn:E; [|discriminate].
  destruct Hx as [<- | Hx]; [eauto|].
  rewrite (appends_for_each body l H ys) in Hz.
  destruct (Py.for_each l body []) as [zs'|] eqn:E'; [|discriminate].
  apply (IH zs' eq_refl x Hx).
Qed.

(** ** search_two: what is a candidate *)

Lemma two_body_appends (self : Optimizer.t) (target : Q) (vfunc : vfunc_t)
    (never_exceed : option Q) (tol_for_ne r1 r2 : Q) :
  appends (fun s =>
             Optimizer.two_body self target vfunc never_exceed tol_for_ne r1 s r2).
Proof.
  intro s. unfold Optimizer.two_body.
  destruct (Py.gtb _ _); [simpl; rewrite app_nil_r; reflexivity|].
  destruct (vfunc r1 r2 VBIAS_TYP) as [v|]; [|reflexivity].
  destruct never_exceed as [ne|]; [|reflexivity].
  destruct (WorstCase.two_res_bounds _ _ _ _ _) as [[vmin vmax]|]; [|reflexivity].
  destruct (Py.gtb _ _); [simpl; rewrite app_nil_r|]; reflexivity.
Qed.

Lemma two_inner_appends (self : Optimizer.t) (target : Q) (vfunc : vfunc_t)
    (never_exceed : option Q) (tol_for_ne r1 : Q) :
  appends (fun s =>
             Py.for_each (Optimizer.pool self)
               (Optimizer.two_body self target vfunc never_exceed tol_for_ne r1)
               s).
Proof. apply appends_for_each. intro r2. apply two_body_appends. Qed.

(** What one pair contributes to the list. *)
Lemma two_body_emits (self : Optimizer.t) (target : Q) (vfunc : vfunc_t)
    (never_exceed : option Q) (tol_for_ne r1 r2 : Q)
    (ys : list TwoResCandidate.t) :
  Optimizer.two_body self target vfunc never_exceed tol_for_ne r1 [] r2 = Some ys ->
  forall c,
    In c ys <->
    (TwoResCandidate.r1 c = r1 /\ TwoResCandidate.r2 c = r2 /\
     TwoResCandidate.rsum c = r1 + r2 /\
     r1 + r2 <= Optimizer.rsum_max self /\
     vfunc r1 r2 VBIAS_TYP = Some (TwoResCandidate.v_nom c) /\
     TwoResCandidate.error c = Qabs (TwoResCandidate.v_nom c - target) /\
     match never_exceed with
     | Some ne =>
         exists vmin vmax,
           WorstCase.two_res_bounds vfunc r1 r2 tol_for_ne (VBIAS_MIN, VBIAS_MAX)
           = Some (vmin, vmax) /\
           vmax <= ne + 1e-12
     | None => True
     end).
Proof.
  unfold Optimizer.two_body. intros H c.
  destruct (Py.gtb (r1 + r2) (Optimizer.rsum_max self)) eqn:Es.
  { injection H as <-. apply gtb_true in Es.
    split; [intros [] | intros (_ & _ & _ & Hs & _); lra]. }
  apply gtb_false in Es.
  destruct (vfunc r1 r2 VBIAS_TYP) as [v|] eqn:Ev; [|discriminate].
  destruct never_exceed as [ne|].
  - destruct (WorstCase.two_res_bounds _ _ _ _ _) as [[vmin vmax]|] eqn:Eb;
      [|discriminate].
    destruct (Py.gtb vmax (ne + 1e-12)) eqn:En; injection H as <-.
    + apply gtb_true in En.
      split; [intros [] | intros (_ & _ & _ & _ & _ & _ & a & b & Hb & Hle)].
      injection Hb as <- <-. lra.
    + apply gtb_false in En. simpl. split.
      * intros [<- | []]. simpl. repeat split; try reflexivity; try assumption.
        exists vmin, vmax. split; [reflexivity | exact En].
      * intros (H1 & H2 & H3 & _ & H5 & H6 & _). left.
        destruct c as [e vn a b s]. simpl in *. subst.
        injection H5 as <-. reflexivity.
  - injection H as <-. simpl. split.
    + intros [<- | []]. simpl. repeat split; try reflexivity; assumption.
    + intros (H1 & H2 & H3 & _ & H5 & H6 & _). left.
      destruct c as [e vn a b s]. simpl in *. subst.
      injection H5 as <-. reflexivity.
Qed.

Lemma two_candidates_In (self : Optimizer.t) (target : Q) (vfunc : vfunc_t)
    (never_exceed : option Q) (tol_for_ne : Q)
    (cands : list TwoResCandidate.t) :
  Optimizer.two_candidates self target vfunc never_exceed tol_for_ne = Some cands ->
  forall c, In c cands <->
            two_accepted self target vfunc never_exceed tol_for_ne c.
Proof.
  unfold Optimizer.two_candidates. intros H c.
  pose proof (two_inner_appends self target vfunc never_exceed tol_for_ne) as Ha.
  rewrite (for_each_In _ _ Ha cands H c). split.
  - intros (r1 & ys & Hr1 & Hys & Hc).
    apply (for_each_In _ _ (two_body_appends self target vfunc never_exceed
                              tol_for_ne r1) ys Hys c) in Hc.
    destruct Hc as (r2 & ys' & Hr2 & Hys' & Hc).
    apply (two_body_emits _ _ _ _ _ _ _ _ Hys') in Hc.
    destruct Hc as (E1 & E2 & E3 & E4 & E5 & E6 & E7).
    unfold two_accepted. rewrite E1, E2, E3. auto 10.
  - intros (Hr1 & Hr2 & E3 & E4 & E5 & E6 & E7).
    destruct (for_each_each_returns _ _ Ha cands H _ Hr1) as (ys & Hys).
    exists (TwoResCandidate.r1 c), ys. split; [exact Hr1|]. split; [exact Hys|].
    apply (for_each_In _ _ (two_body_appends self target vfunc never_exceed
                              tol_for_ne (TwoResCandidate.r1 c)) ys Hys c).
    destruct (for_each_each_returns _ _
                (two_body_appends self target vfunc never_exceed tol_for_ne
                   (TwoResCandidate.r1 c)) ys Hys _ Hr2) as (ys' & Hys').
    exists (TwoResCandidate.r2 c), ys'. split; [exact Hr2|]. split; [exact Hys'|].
    apply (two_body_emits _ _ _ _ _ _ _ _ Hys').
    rewrite <- E3. auto 10.
Qed.

Lemma search_two_In (self : Optimizer.t) (target : Q) (vfunc : vfunc_t)
    (never_exceed : option Q) (tol_for_ne : Q)
    (target_checker : option (Q -> bool)) (l : list TwoResCandidate.t) :
  Optimizer.search_two self target vfunc never_exceed tol_for_ne target_checker
  = Some l ->
  forall c, In c l -> two_accepted self target vfunc never_exceed tol_for_ne c.
Proof.
  intros H c Hc. apply search_two_shape in H as [-> | (cands & Hcands & ->)];
    [destruct Hc|].
  apply In_slice_to, In_sorted in Hc.
  apply (two_candidates_In _ _ _ _ _ _ Hcands), Hc.
Qed.




(** ** Ranking: the best records, prefixes, ties *)

Lemma search_ok_result (self : Optimizer.t) (target_prog target_hyst : option Q)
    (cands : list ThreeResCandidate.t) :
  Optimizer.ok_candidates self target_prog target_hyst = Some cands ->
  Optimizer.search_ok self target_prog target_hyst
  = Some (three_result self cands).
Proof. intro H. unfold Optimizer.search_ok. rewrite H. reflexivity. Qed.

Lemma lex_le_fields (a b : Q * Q) :
  lex_le a b -> fst a <= fst b /\ (fst a == fst b -> snd a <= snd b).
Proof. unfold lex_le. intros [H | [H H']]; split; intros; lra. Qed.

(** X9: the searches return the best candidates, not just sorted ones:
    the returned list and the candidates left out make up the accepted
    candidates, no candidate left out ranks before a returned one, the
    list has min(limit, number of candidates) records for a limit >= 0,
    and its first record has the least error of all candidates (least
    resistance sum among those of least error). *)
Theorem search_returns_best (self : Optimizer.t) :
  (forall target vfunc never_exceed tol_for_ne target_checker cands,
      Optimizer.two_candidates self target vfunc never_exceed tol_for_ne
      = Some cands ->
      admitted target_checker target ->
      Optimizer.search_two self target vfunc never_exceed tol_for_ne
        target_checker = Some (two_result self cands) /\
      top_of two_key (Optimizer.limit self) cands (two_result self cands) /\
      forall best tl c,
        two_result self cands = best :: tl -> In c cands ->
        TwoResCandidate.error best <= TwoResCandidate.error c /\
        (TwoResCandidate.error best == TwoResCandidate.error c ->
         TwoResCandidate.rsum best <= TwoResCandidate.rsum c)) /\
  (forall target_prog target_hyst cands,
      Optimizer.ok_candidates self target_prog target_hyst = Some cands ->
      Optimizer.search_ok self target_prog target_hyst
      = Some (three_result self cands) /\
      top_of three_key (Optimizer.limit self) cands (three_result self cands) /\
      forall best tl c,
        three_result self cands = best :: tl -> In c cands ->
        ThreeResCandidate.error best <= ThreeResCandidate.error c /\
        (ThreeResCandidate.error best == ThreeResCandidate.error c ->
         ThreeResCandidate.rsum best <= ThreeResCandidate.rsum c)).
Proof.
  split.
  - intros target vfunc never_exceed tol_for_ne target_checker cands Hc Ha.
    split; [apply search_two_admitted; assumption|].
    pose proof (sorted_slice_top two_key (Optimizer.limit self) cands) as Htop.
    split; [exact Htop|].
    intros best tl c Hres Hin.
    apply (lex_le_fields (two_key best) (two_key c)).
    apply (top_of_best two_key (Optimizer.limit self) cands _ Htop) with (tl := tl);
      [|exact Hres | exact Hin].
    apply slice_to_StronglySorted, (key_sorted two_key).
  - intros target_prog target_hyst cands Hc.
    split; [apply search_ok_result; assumption|].
    pose proof (sorted_slice_top three_key (Optimizer.limit self) cands) as Htop.
    split; [exact Htop|].
    intros best tl c Hres Hin.
    apply (lex_le_fields (three_key best) (three_key c)).
    apply (top_of_best three_key (Optimizer.limit self) cands _ Htop) with (tl := tl);
      [|exact Hres | exact Hin].
    apply slice_to_StronglySorted, (key_sorted three_key).
Qed.

Lemma search_returns_best_witness :
  exists cands,
    Optimizer.two_candidates (example_optimizer 2.2e6 4) 3.3 Calculator.vout
      None 0.01 = Some cands /\
    List.length cands = 6%nat /\
    List.length (two_result (example_optimizer 2.2e6 4) cands) = 4%nat /\
    top_of two_key 4 cands (two_result (example_optimizer 2.2e6 4) cands).
Proof.
  eexists. split; [vm_compute; reflexivity|]. split; [reflexivity|].
  split; [reflexivity|].
  apply (proj1 (search_returns_best (example_optimizer 2.2e6 4)) 3.3
           Calculator.vout None 0.01 None).
  - vm_compute. reflexivity.
  - exact I.
Defined.

Lemma slice_to_slice {A : Type} (l : list A) (k n : Z) :
  (0 <= k)%Z -> (k <= n)%Z ->
  Py.slice_to l k = firstn (Z.to_nat k) (Py.slice_to l n).
Proof.
  intros Hk Hn. unfold Py.slice_to.
  destruct (k <? 0)%Z eqn:Ek; [apply Z.ltb_lt in Ek; lia|].
  destruct (n <? 0)%Z eqn:En; [apply Z.ltb_lt in En; lia|].
  rewrite firstn_firstn. f_equal. lia.
Qed.

(** X10: a shorter limit gives a prefix of the longer list: for
    0 <= k <= n and otherwise equal inputs, each search under limit k
    returns the first k records of what it returns under limit n. *)
Theorem search_limit_prefix (self : Optimizer.t) (k n : Z) :
  (0 <= k)%Z -> (k <= n)%Z ->
  (forall target vfunc never_exceed tol_for_ne target_checker l,
      Optimizer.search_two (with_limit self n) target vfunc never_exceed
        tol_for_ne target_checker = Some l ->
      Optimizer.search_two (with_limit self k) target vfunc never_exceed
        tol_for_ne target_checker = Some (firstn (Z.to_nat k) l)) /\
  (forall target_prog target_hyst l,
      Optimizer.search_ok (with_limit self n) target_prog target_hyst = Some l ->
      Optimizer.search_ok (with_limit self k) target_prog target_hyst
      = Some (firstn (Z.to_nat k) l)).
Proof.
  intros Hk Hn. split.
  - intros target vfunc never_exceed tol_for_ne target_checker l.
    unfold Optimizer.search_two.
    destruct (match target_checker with
              | Some checker => negb (checker target)
              | None => false
              end).
    { intro H. injection H as <-. rewrite firstn_nil. reflexivity. }
    change (Optimizer.two_candidates (with_limit self k) target vfunc
              never_exceed tol_for_ne)
      with (Optimizer.two_candidates (with_limit self n) target vfunc
              never_exceed tol_for_ne).
    destruct (Optimizer.two_candidates (with_limit self n) _ _ _ _) as [cands|];
      [|discriminate].
    intro H. injection H as <-. simpl.
    rewrite (slice_to_slice _ k n Hk Hn). reflexivity.
  - intros target_prog target_hyst l. unfold Optimizer.search_ok.
    change (Optimizer.ok_candidates (with_limit self k) target_prog target_hyst)
      with (Optimizer.ok_candidates (with_limit self n) target_prog target_hyst).
    destruct (Optimizer.ok_candidates (with_limit self n) _ _) as [cands|];
      [|discriminate].
    intro H. injection H as <-. simpl.
    rewrite (slice_to_slice _ k n Hk Hn). reflexivity.
Qed.

Lemma search_limit_prefix_witness :
  exists l,
    Optimizer.search_two (with_limit (example_optimizer 2.2e6 0) 4) 3.3
      Calculator.vout None 0.01 None = Some l /\
    List.length l = 4%nat /\
    Optimizer.search_two (with_limit (example_optimizer 2.2e6 0) 2) 3.3
      Calculator.vout None 0.01 None = Some (firstn 2 l).
Proof.
  eexists. split; [vm_compute; reflexivity|]. split; [reflexivity|].
  apply (proj1 (search_limit_prefix (example_optimizer 2.2e6 0) 2 4
                  ltac:(lia) ltac:(lia)) 3.3 Calculator.vout None 0.01 None).
  vm_compute. reflexivity.
Defined.

Lemma key_filter_sorted {C : Type} (key : C -> Q * Q) (k : Q * Q) (l : list C) :
  filter (has_key key k)
    (Py.sorted (fun x y => Py.tuple_ltb (key x) (key y)) l)
  = filter (has_key key k) l.
Proof.
  apply filter_sorted. intros x y. unfold has_key. apply tuple_ltb_not_same.
Qed.

(** X11: ties keep the order of enumeration: among the candidates with one
    and the same (error, sum) key the sort changes nothing, so the sorted
    list, of which the result is the leading part, lists them as the loops
    met them (bottom resistor ascending, then the upper ones). *)
Theorem search_sort_stable (self : Optimizer.t) (k : Q * Q) :
  (forall cands : list TwoResCandidate.t,
      exists rest,
        Py.sorted Optimizer.two_key_ltb cands = two_result self cands ++ rest /\
        filter (has_key two_key k) (two_result self cands ++ rest)
        = filter (has_key two_key k) cands) /\
  (forall cands : list ThreeResCandidate.t,
      exists rest,
        Py.sorted Optimizer.three_key_ltb cands = three_result self cands ++ rest /\
        filter (has_key three_key k) (three_result self cands ++ rest)
        = filter (has_key three_key k) cands).
Proof.
  split; intro cands.
  - destruct (slice_to_prefix (Py.sorted Optimizer.two_key_ltb cands)
                (Optimizer.limit self)) as (rest & Hrest).
    exists rest. split; [exact Hrest|].
    unfold two_result. rewrite <- Hrest. apply (key_filter_sorted two_key).
  - destruct (slice_to_prefix (Py.sorted Optimizer.three_key_ltb cands)
                (Optimizer.limit self)) as (rest & Hrest).
    exists rest. split; [exact Hrest|].
    unfold three_result. rewrite <- Hrest. apply (key_filter_sorted three_key).
Qed.
(** ** search_ok: what is a candidate *)

Lemma ok_body_appends (self : Optimizer.t) (target_prog target_hyst : option Q)
    (r1 r2 vp r3 : Q) :
  appends (fun s =>
             Optimizer.ok_body self target_prog target_hyst r1 r2 vp s r3).
Proof.
  intro s. unfold Optimizer.ok_body.
  destruct (Py.gtb _ _); [simpl; rewrite app_nil_r; reflexivity|].
  destruct (Calculator.vbat_ok_hyst r1 r2 r3 VBIAS_TYP) as [vh|]; [|reflexivity].
  destruct (negb _); [simpl; rewrite app_nil_r; reflexivity|].
  destruct target_prog, target_hyst; simpl; rewrite ?app_nil_r; reflexivity.
Qed.

Lemma ok_middle_appends (self : Optimizer.t) (target_prog target_hyst : option Q)
    (r1 r2 : Q) :
  appends (fun s =>
             vp <- Calculator.vbat_ok_prog r1 r2 VBIAS_TYP ;;
             Py.for_each (Optimizer.pool self)
               (Optimizer.ok_body self target_prog target_hyst r1 r2 vp) s).
Proof.
  apply (appends_bind (Calculator.vbat_ok_prog r1 r2 VBIAS_TYP)
           (fun vp s =>
              Py.for_each (Optimizer.pool self)
                (Optimizer.ok_body self target_prog target_hyst r1 r2 vp) s)).
  intro vp. apply appends_for_each. intro r3. apply ok_body_appends.
Qed.

Lemma ok_outer_appends (self : Optimizer.t) (target_prog target_hyst : option Q)
    (r1 : Q) :
  appends (fun s =>
             Py.for_each (Optimizer.pool self)
               (fun cands r2 =>
                  vp <- Calculator.vbat_ok_prog r1 r2 VBIAS_TYP ;;
                  Py.for_each (Optimizer.pool self)
                    (Optimizer.ok_body self target_prog target_hyst r1 r2 vp)
                    cands)
               s).
Proof.
  apply (appends_for_each
           (fun cands r2 =>
              vp <- Calculator.vbat_ok_prog r1 r2 VBIAS_TYP ;;
              Py.for_each (Optimizer.pool self)
                (Optimizer.ok_body self target_prog target_hyst r1 r2 vp) cands)).
  intro r2. apply ok_middle_appends.
Qed.

Lemma ok_body_emits (self : Optimizer.t) (target_prog target_hyst : option Q)
    (r1 r2 vp r3 : Q) (ys : list ThreeResCandidate.t) :
  Optimizer.ok_body self target_prog target_hyst r1 r2 vp [] r3 = Some ys ->
  forall c,
    In c ys <->
    (ThreeResCandidate.r1 c = r1 /\ ThreeResCandidate.r2 c = r2 /\
     ThreeResCandidate.r3 c = r3 /\
     ThreeResCandidate.rsum c = r1 + r2 + r3 /\
     r1 + r2 + r3 <= Optimizer.rsum_max self /\
     ThreeResCandidate.v_prog c = vp /\
     Calculator.vbat_ok_hyst r1 r2 r3 VBIAS_TYP
     = Some (ThreeResCandidate.v_hyst c) /\
     DatasheetLimits.ok_relationships (Optimizer.limits self) vp
       (ThreeResCandidate.v_hyst c) = true /\
     ok_error target_prog target_hyst vp (ThreeResCandidate.v_hyst c)
     = Some (ThreeResCandidate.error c)).
Proof.
  unfold Optimizer.ok_body. intros H c.
  destruct (Py.gtb (r1 + r2 + r3) (Optimizer.rsum_max self)) eqn:Es.
  { injection H as <-. apply gtb_true in Es.
    split; [intros [] | intros (_ & _ & _ & _ & Hs & _); lra]. }
  apply gtb_false in Es.
  destruct (Calculator.vbat_ok_hyst r1 r2 r3 VBIAS_TYP) as [vh|] eqn:Eh;
    [|discriminate].
  destruct (DatasheetLimits.ok_relationships (Optimizer.limits self) vp vh) eqn:Eo;
    simpl in H.
  2:{ injection H as <-.
      split; [intros [] | intros (_ & _ & _ & _ & _ & _ & Hh & Hok & _)].
      injection Hh as E. subst vh. congruence. }
  assert (Hback : forall err,
             ok_error target_prog target_hyst vp vh = Some err ->
             ys = [ThreeResCandidate.mk err vp vh r1 r2 r3 (r1 + r2 + r3)] ->
             In c ys <->
             (ThreeResCandidate.r1 c = r1 /\ ThreeResCandidate.r2 c = r2 /\
              ThreeResCandidate.r3 c = r3 /\
              ThreeResCandidate.rsum c = r1 + r2 + r3 /\
              r1 + r2 + r3 <= Optimizer.rsum_max self /\
              ThreeResCandidate.v_prog c = vp /\
              Some vh = Some (ThreeResCandidate.v_hyst c) /\
              DatasheetLimits.ok_relationships (Optimizer.limits self) vp
                (ThreeResCandidate.v_hyst c) = true /\
              ok_error target_prog target_hyst vp (ThreeResCandidate.v_hyst c)
              = Some (ThreeResCandidate.error c))).
  { intros err Herr ->. simpl. split.
    - intros [<- | []]. simpl. repeat split; try reflexivity; assumption.
    - intros (H1 & H2 & H3 & H4 & _ & H6 & H7 & _ & H9). left.
      destruct c as [e p h a b d s]. simpl in *. subst.
      injection H7 as <-. rewrite Herr in H9. injection H9 as <-. reflexivity. }
  destruct target_prog as [tp|], target_hyst as [th|];
    try (injection H as <-; apply (Hback _ eq_refl eq_refl)).
  injection H as <-.
  split; [intros [] | intros (_ & _ & _ & _ & _ & _ & _ & _ & H9)].
  discriminate.
Qed.

Lemma ok_candidates_In (self : Optimizer.t) (target_prog target_hyst : option Q)
    (cands : list ThreeResCandidate.t) :
  Optimizer.ok_candidates self target_prog target_hyst = Some cands ->
  forall c, In c cands <-> three_accepted self target_prog target_hyst c.
Proof.
  unfold Optimizer.ok_candidates. intros H c.
  pose proof (ok_outer_appends self target_prog target_hyst) as Ha.
  pose proof (ok_middle_appends self target_prog target_hyst) as Hm.
  pose proof (ok_body_appends self target_prog target_hyst) as Hb.
  rewrite (for_each_In _ _ Ha cands H c). split.
  - intros (r1 & ys & Hr1 & Hys & Hc).
    apply (for_each_In _ _ (Hm r1) ys Hys c) in Hc.
    destruct Hc as (r2 & ys2 & Hr2 & Hys2 & Hc).
    destruct (Calculator.vbat_ok_prog r1 r2 VBIAS_TYP) as [vp|] eqn:Ep;
      [|discriminate].
    apply (for_each_In _ _ (fun r3 => Hb r1 r2 vp r3) ys2 Hys2 c) in Hc.
    destruct Hc as (r3 & ys3 & Hr3 & Hys3 & Hc).
    apply (ok_body_emits _ _ _ _ _ _ _ _ Hys3) in Hc.
    destruct Hc as (E1 & E2 & E3 & E4 & E5 & E6 & E7 & E8 & E9).
    unfold three_accepted. rewrite E1, E2, E3, E4, E6. auto 12.
  - intros (Hr1 & Hr2 & Hr3 & E4 & E5 & E6 & E7 & E8 & E9).
    destruct (for_each_each_returns _ _ Ha cands H _ Hr1) as (ys & Hys).
    exists (ThreeResCandidate.r1 c), ys. split; [exact Hr1|]. split; [exact Hys|].
    apply (for_each_In _ _ (Hm (ThreeResCandidate.r1 c)) ys Hys c).
    destruct (for_each_each_returns _ _ (Hm (ThreeResCandidate.r1 c)) ys Hys
                _ Hr2) as (ys2 & Hys2).
    exists (ThreeResCandidate.r2 c), ys2.
    split; [exact Hr2|]. split; [exact Hys2|].
    rewrite E6 in Hys2.
    apply (for_each_In _ _
             (fun r3 => Hb (ThreeResCandidate.r1 c) (ThreeResCandidate.r2 c)
                           (ThreeResCandidate.v_prog c) r3) ys2 Hys2 c).
    destruct (for_each_each_returns _ _
                (fun r3 => Hb (ThreeResCandidate.r1 c) (ThreeResCandidate.r2 c)
                              (ThreeResCandidate.v_prog c) r3) ys2 Hys2 _ Hr3)
      as (ys3 & Hys3).
    exists (ThreeResCandidate.r3 c), ys3.
    split; [exact Hr3|]. split; [exact Hys3|].
    apply (ok_body_emits _ _ _ _ _ _ _ _ Hys3).
    rewrite <- E4. auto 12.
Qed.

Lemma search_ok_In (self : Optimizer.t) (target_prog target_hyst : option Q)
    (l : list ThreeResCandidate.t) :
  Optimizer.search_ok self target_prog target_hyst = Some l ->
  forall c, In c l -> three_accepted self target_prog target_hyst c.
Proof.
  unfold Optimizer.search_ok. intros H c Hc.
  destruct (Optimizer.ok_candidates self target_prog target_hyst)
    as [cands|] eqn:E; [|discriminate].
  injection H as <-. apply In_slice_to, In_sorted in Hc.
  apply (ok_candidates_In _ _ _ _ E), Hc.
Qed.



Lemma ok_error_nonneg (target_prog target_hyst : option Q) (vp vh e : Q) :
  ok_error target_prog target_hyst vp vh = Some e -> 0 <= e.
Proof.
  unfold ok_error.
  destruct target_prog as [tp|], target_hyst as [th|]; intro H;
    try discriminate;
    match type of H with
    | Some ?x = Some _ => assert (E : x = e) by congruence; rewrite <- E
    end;
    try apply Qabs_nonneg.
  pose proof (Qabs_nonneg (vp - tp)). pose proof (Qabs_nonneg (vh - th)). lra.
Qed.



(** ** ESeries: size, span, series name *)

Lemma range_length (lo hi : Z) : List.length (Py.range lo hi) = Z.to_nat (hi - lo).
Proof. unfold Py.range. rewrite length_map, length_seq. reflexivity. Qed.

Lemma scaled_decades_length (base : list Q) (decades : list Z) :
  List.length (scaled_decades base decades)
  = (List.length decades * List.length base)%nat.
Proof.
  unfold scaled_decades. induction decades as [|d ds IH]; simpl; [reflexivity|].
  rewrite length_app, length_map, IH. reflexivity.
Qed.

Lemma pow10_ge_1 (k : Z) : (0 <= k)%Z -> 1 <= ESeries.pow10 k.
Proof.
  revert k. apply natlike_ind.
  - unfold ESeries.pow10. simpl. apply Qle_refl.
  - intros k Hk IH. unfold Z.succ. rewrite pow10_succ. lra.
Qed.

Lemma pow10_mono (d d' : Z) : (d <= d')%Z -> ESeries.pow10 d <= ESeries.pow10 d'.
Proof.
  intro H. replace d' with (d + (d' - d))%Z by lia.
  unfold ESeries.pow10. rewrite Qpower_plus by discriminate.
  fold (ESeries.pow10 d). fold (ESeries.pow10 (d' - d)).
  pose proof (pow10_pos d). pose proof (pow10_ge_1 (d' - d) ltac:(lia)). nra.
Qed.

Lemma base_of_head (self : ESeries.t) :
  exists b tl, base_of self = b :: tl /\ b == 1.
Proof.
  unfold base_of. destruct (String.eqb _ _); do 2 eexists;
    (split; [reflexivity|]); reflexivity.
Qed.


Lemma upper_ascii_E (c : ascii) :
  Py.upper_ascii c = "E"%char <-> c = "E"%char \/ c = "e"%char.
Proof.
  destruct c as [[] [] [] [] [] [] [] []]; vm_compute;
    (split; [intro H; try discriminate H; auto
            | intros [H | H]; try discriminate H; reflexivity]).
Qed.

Lemma upper_ascii_2 (c : ascii) : Py.upper_ascii c = "2"%char <-> c = "2"%char.
Proof.
  destruct c as [[] [] [] [] [] [] [] []]; vm_compute;
    (split; intro H; try discriminate H; reflexivity).
Qed.

Lemma upper_ascii_4 (c : ascii) : Py.upper_ascii c = "4"%char <-> c = "4"%char.
Proof.
  destruct c as [[] [] [] [] [] [] [] []]; vm_compute;
    (split; intro H; try discriminate H; reflexivity).
Qed.

Lemma upper_E24 (name : string) :
  Py.upper name = "E24"%string <-> name = "E24"%string \/ name = "e24"%string.
Proof.
  split.
  - destruct name as [|c1 [|c2 [|c3 [|c4 s]]]]; simpl; intro H;
      try discriminate H.
    injection H as H1 H2 H3.
    apply (proj1 (upper_ascii_E _)) in H1.
    apply (proj1 (upper_ascii_2 _)) in H2.
    apply (proj1 (upper_ascii_4 _)) in H3. subst c2 c3.
    destruct H1 as [-> | ->]; [left | right]; reflexivity.
  - intros [-> | ->]; reflexivity.
Qed.

(** X15: the series name is matched without regard to case, and only
    against E24: a series built with the name E24 or e24 uses the 24-entry
    table, a series built with any other name (E96, e96, E12, the empty
    string, ...) uses the 96-entry table. *)
Theorem series_name_choice (name : string) (d_min d_max : Z) :
  (name = "E24"%string \/ name = "e24"%string ->
   base_of (ESeries.init name d_min d_max) = E24_BASE) /\
  (name <> "E24"%string -> name <> "e24"%string ->
   base_of (ESeries.init name d_min d_max) = E96_BASE).
Proof.
  unfold base_of, ESeries.init. simpl.
  destruct (String.eqb (Py.upper name) "E24") eqn:E.
  - apply String.eqb_eq, upper_E24 in E. split; [reflexivity|].
    intros H1 H2. destruct E; contradiction.
  - apply String.eqb_neq in E. split; [|reflexivity].
    intro H. exfalso. apply E, upper_E24, H.
Qed.

Lemma series_name_choice_witness :
  base_of (ESeries.init "e24" 6 7) = E24_BASE /\
  base_of (ESeries.init "E12" 6 7) = E96_BASE.
Proof.
  split.
  - apply (proj1 (series_name_choice "e24" 6 7)). right. reflexivity.
  - apply (proj2 (series_name_choice "E12" 6 7)); discriminate.
Defined.

(** ** CLI: what the validation lets through *)

Lemma vout_range_check (vs : list Q) :
  existsb (fun v => Py.ltb v 2.0 || Py.gtb v 5.5) vs = false <->
  forall v, In v vs -> 2.0 <= v /\ v <= 5.5.
Proof.
  induction vs as [|x vs IH]; simpl.
  - split; [intros _ v [] | reflexivity].
  - rewrite orb_false_iff, IH, orb_false_iff, ltb_false, gtb_false. split.
    + intros [Hx Hvs] v [<- | Hv]; [exact Hx | apply Hvs, Hv].
    + intro H. split; [apply H; left; reflexivity|].
      intros v Hv. apply H. right. exact Hv.
Qed.

Lemma gate_false (flag check : bool) (P : Prop) :
  (check = false <-> P) -> (flag && check = false <-> (flag = true -> P)).
Proof.
  intros H. destruct flag; simpl.
  - rewrite H. split; [intros HP _; exact HP | intro HP; apply HP; reflexivity].
  - split; [intros _ E; discriminate | reflexivity].
Qed.

Lemma ov_range_check (o : option Q) :
  match o with
  | Some ov => negb (Qle_bool 2.2 ov && Qle_bool ov 5.5)
  | None => false
  end = false <->
  forall ov, o = Some ov -> 2.2 <= ov /\ ov <= 5.5.
Proof.
  destruct o as [ov|].
  - rewrite negb_false_iff, andb_true_iff, !Qle_bool_iff. split.
    + intros H x E. injection E as <-. exact H.
    + intro H. apply H. reflexivity.
  - split; [intros _ ov E; discriminate | reflexivity].
Qed.

Lemma ceiling_check (o : option Q) (hyst : Q) :
  match o with
  | Some ov => Py.gtb hyst ov
  | None => false
  end = false <->
  forall ov, o = Some ov -> hyst <= ov.
Proof.
  destruct o as [ov|].
  - rewrite gtb_false. split.
    + intros H x E. injection E as <-. exact H.
    + intro H. apply H. reflexivity.
  - split; [intros _ ov E; discriminate | reflexivity].
Qed.

(** The checks on the VBAT_OK pair. *)
Lemma ok_pair_check (op oh oov : option Q) (uv : Q) :
  match op, oh with
  | Some prog, Some hyst =>
      if Py.ltb prog uv
      then Some "Error: VBAT_OK_PROG must be >= VBAT_UV."%string
      else if Qle_bool hyst prog
      then Some "Error: VBAT_OK_HYST must be > VBAT_OK_PROG."%string
      else if match oov with
              | Some ov => Py.gtb hyst ov
              | None => false
              end
      then Some "Error: VBAT_OK_HYST must be <= VBAT_OV."%string
      else None
  | _, _ =>
      Some "Error: Both --vbat-ok-prog and --vbat-ok-hyst must be provided."%string
  end = None <->
  exists prog hyst,
    op = Some prog /\ oh = Some hyst /\ uv <= prog /\ prog < hyst /\
    forall ov, oov = Some ov -> hyst <= ov.
Proof.
  destruct op as [p|], oh as [h|];
    try (split; [discriminate | intros (a & b & E1 & E2 & _); discriminate]).
  pose proof (ceiling_check oov h) as Hc.
  destruct (Py.ltb p uv) eqn:C1.
  { apply ltb_true in C1. split; [discriminate|].
    intros (a & b & E1 & _ & H & _). injection E1 as <-. lra. }
  apply ltb_false in C1.
  destruct (Qle_bool h p) eqn:C2.
  { apply Qle_bool_iff in C2. split; [discriminate|].
    intros (a & b & E1 & E2 & _ & H & _).
    injection E1 as <-. injection E2 as <-. lra. }
  assert (C2' : p < h).
  { apply Qnot_le_lt. intro Hle. apply Qle_bool_iff in Hle. congruence. }
  destruct (match oov with Some ov => Py.gtb h ov | None => false end).
  - split; [discriminate|]. intros (a & b & _ & E2 & _ & _ & H).
    injection E2 as <-. assert (true = false); [|discriminate]. apply Hc, H.
  - split; [intros _ | reflexivity].
    exists p, h. repeat split; try assumption. apply Hc. reflexivity.
Qed.

Lemma validate_None (argv : list string) (args : CLI.Args) :
  CLI.validate argv args = None <-> validated argv args.
Proof.
  unfold CLI.validate, validated.
  rewrite <- (gate_false (CLI.in_argv "--vout" argv) _ _
                (vout_range_check (CLI.vout args))).
  rewrite <- (gate_false (CLI.in_argv "--vbat-ov" argv) _ _
                (ov_range_check (CLI.vbat_ov args))).
  rewrite <- (ok_pair_check (CLI.vbat_ok_prog args) (CLI.vbat_ok_hyst args)
                (CLI.vbat_ov args) (CLI.vbat_uv args)).
  destruct (CLI.in_argv "--vout" argv && _);
    [split; [discriminate | intros (H & _); discriminate H]|].
  destruct (CLI.in_argv "--vbat-ov" argv && _);
    [split; [discriminate | intros (_ & H & _); discriminate H]|].
  destruct (CLI.in_argv "--vbat-ok-prog" argv) eqn:F3;
    destruct (CLI.in_argv "--vbat-ok-hyst" argv) eqn:F4; simpl.
  - split; [intro H; auto | intros (_ & _ & H); apply H; auto].
  - split; [intro H; auto | intros (_ & _ & H); apply H; auto].
  - split; [intro H; auto | intros (_ & _ & H); apply H; auto].
  - split; [intros _ | reflexivity].
    split; [reflexivity|]. split; [reflexivity|].
    intros [H | H]; discriminate H.
Qed.





(** ** Formatter: when printing raises, and what the rows show *)

Lemma for_each_Forall2 {A B : Type} (body : list B -> A -> option (list B))
    (R : A -> B -> Prop) (l : list A) :
  (forall s x, In x l -> exists y, body s x = Some (s ++ [y]) /\ R x y) ->
  forall s, exists ys, Py.for_each l body s = Some (s ++ ys) /\ Forall2 R l ys.
Proof.
  induction l as [|x l IH]; intros H s; simpl.
  - exists []. rewrite app_nil_r. split; [reflexivity | constructor].
  - destruct (H s x (or_introl eq_refl)) as (y & Ey & Hy). rewrite Ey.
    destruct (IH (fun s0 x0 Hx0 => H s0 x0 (or_intror Hx0)) (s ++ [y]))
      as (ys & Eys & Hys).
    exists (y :: ys). rewrite Eys, <- app_assoc. split; [reflexivity|].
    constructor; assumption.
Qed.

Lemma for_each_None {A C : Type} (body : list C -> A -> option (list C))
    (l : list A) :
  (forall x, appends (fun s => body s x)) ->
  forall s, Py.for_each l body s = None <-> exists x, In x l /\ body [] x = None.
Proof.
  intro Ha. induction l as [|x l IH]; intro s; simpl.
  - split; [discriminate | intros (x & [] & _)].
  - rewrite (Ha x s). destruct (body [] x) as [ys|] eqn:E; simpl.
    + rewrite IH. split.
      * intros (y & Hy & Ey). exists y. auto.
      * intros (y & [<- | Hy] & Ey); [congruence | exists y; auto].
    + split; [intros _; exists x; auto | reflexivity].
Qed.

Lemma two_line_appends (vfunc : vfunc_t) (tol : Q) (row : TwoResCandidate.t) :
  appends (fun out =>
             '(m1, M1) <- WorstCase.two_res_bounds
                            vfunc (TwoResCandidate.r1 row)
                            (TwoResCandidate.r2 row) tol
                            (VBIAS_MIN, VBIAS_MAX) ;;
             '(m10, M10) <- WorstCase.two_res_bounds
                              vfunc (TwoResCandidate.r1 row)
                              (TwoResCandidate.r2 row) 0.10
                              (VBIAS_MIN, VBIAS_MAX) ;;
             Some (out ++ [Formatter.mk_two row (m1, M1) (m10, M10)])).
Proof.
  intro s.
  destruct (WorstCase.two_res_bounds vfunc _ _ tol _) as [[m1 M1]|];
    [|reflexivity].
  destruct (WorstCase.two_res_bounds vfunc _ _ 0.10 _) as [[m10 M10]|];
    reflexivity.
Qed.

Lemma ok_line_appends (row : ThreeResCandidate.t) :
  appends (fun out =>
             b1 <- WorstCase.ok_bounds
                     (ThreeResCandidate.r1 row) (ThreeResCandidate.r2 row)
                     (ThreeResCandidate.r3 row) 0.01 (VBIAS_MIN, VBIAS_MAX) ;;
             b10 <- WorstCase.ok_bounds
                      (ThreeResCandidate.r1 row) (ThreeResCandidate.r2 row)
                      (ThreeResCandidate.r3 row) 0.10 (VBIAS_MIN, VBIAS_MAX) ;;
             Some (out ++ [Formatter.mk_ok row b1 b10])).
Proof.
  intro s.
  destruct (WorstCase.ok_bounds _ _ _ 0.01 _); [|reflexivity].
  destruct (WorstCase.ok_bounds _ _ _ 0.10 _); reflexivity.
Qed.

Lemma fixed_tolerances :
  ~ 0.10 == 1 /\ ~ 0.10 == -1 /\ ~ 0.01 == 1 /\ ~ 0.01 == -1.
Proof. repeat split; intro H; discriminate H. Qed.


Lemma two_bounds_hold_nominal (vfunc : vfunc_t) (r1 r2 tol v : Q) :
  In vfunc two_res_family -> 0 < r1 -> 0 < r2 -> 0 <= tol -> tol < 1 ->
  vfunc r1 r2 VBIAS_TYP = Some v ->
  exists i,
    WorstCase.two_res_bounds vfunc r1 r2 tol (VBIAS_MIN, VBIAS_MAX) = Some i /\
    inside i v.
Proof.
  intros Hf Hr1 Hr2 Ht0 Ht1 Hv.
  destruct bias_corners as (Hlo & Hlt & Hth).
  destruct (two_res_sound_family r1 r2 tol VBIAS_MIN VBIAS_MAX
              Hr1 Hr2 Ht0 Ht1 Hlo vfunc Hf) as (a & b & Hb & Hall).
  destruct (Hall r1 r2 VBIAS_TYP (within_tol_nominal r1 tol Hr1 Ht0)
              (within_tol_nominal r2 tol Hr2 Ht0) Hlt Hth) as (v' & Hv' & Hin).
  rewrite Hv in Hv'. injection Hv' as <-.
  exists (a, b). split; [exact Hb | exact Hin].
Qed.

Lemma print_two_lines (vfunc : vfunc_t) (tol : Q)
    (rows : list TwoResCandidate.t) :
  In vfunc two_res_family -> 0 <= tol -> tol < 1 ->
  (forall row, In row rows ->
     0 < TwoResCandidate.r1 row /\ 0 < TwoResCandidate.r2 row /\
     vfunc (TwoResCandidate.r1 row) (TwoResCandidate.r2 row) VBIAS_TYP
     = Some (TwoResCandidate.v_nom row)) ->
  exists lines,
    Formatter.print_two_section rows vfunc tol = Some lines /\
    Forall2 (two_line_shows tol) rows lines.
Proof.
  intros Hf Ht0 Ht1 Hrows. unfold Formatter.print_two_section.
  apply (fun H => for_each_Forall2 _ (two_line_shows tol) rows H []).
  intros s row Hrow. destruct (Hrows row Hrow) as (Hr1 & Hr2 & Hv).
  destruct (two_bounds_hold_nominal vfunc _ _ tol _ Hf Hr1 Hr2 Ht0 Ht1 Hv)
    as ([m1 M1] & E1 & I1).
  destruct (two_bounds_hold_nominal vfunc _ _ 0.10 _ Hf Hr1 Hr2
              ltac:(vm_compute; discriminate) ltac:(reflexivity) Hv)
    as ([m10 M10] & E2 & I2).
  rewrite E1, E2. eexists. split; [reflexivity|].
  unfold two_line_shows. simpl.
  split; [reflexivity|]. split; [exact I1|]. split; [exact I2|].
  intro Hle.
  destruct (interval_inside_two vfunc (TwoResCandidate.r1 row)
              (TwoResCandidate.r2 row) tol 0.10 VBIAS_MIN VBIAS_MAX
              Hf Hr1 Hr2 Ht0 Hle ltac:(reflexivity)
              ltac:(vm_compute; discriminate) ltac:(vm_compute; discriminate))
    as (a & b & a' & b' & Ea & Eb & Hab).
  rewrite E1 in Ea. rewrite E2 in Eb.
  injection Ea as <- <-. injection Eb as <- <-. exact Hab.
Qed.

Lemma print_ok_lines (tol : Q) (rows : list ThreeResCandidate.t) :
  (forall row, In row rows ->
     0 < ThreeResCandidate.r1 row /\ 0 < ThreeResCandidate.r2 row /\
     0 < ThreeResCandidate.r3 row /\
     Calculator.vbat_ok_prog (ThreeResCandidate.r1 row)
       (ThreeResCandidate.r2 row) VBIAS_TYP
     = Some (ThreeResCandidate.v_prog row) /\
     Calculator.vbat_ok_hyst (ThreeResCandidate.r1 row)
       (ThreeResCandidate.r2 row) (ThreeResCandidate.r3 row) VBIAS_TYP
     = Some (ThreeResCandidate.v_hyst row)) ->
  exists lines,
    Formatter.print_ok_section rows tol = Some lines /\
    Forall2 ok_line_shows rows lines.
Proof.
  intros Hrows. unfold Formatter.print_ok_section.
  apply (fun H => for_each_Forall2 _ ok_line_shows rows H []).
  intros s row Hrow. destruct (Hrows row Hrow) as (Hr1 & Hr2 & Hr3 & Hp & Hh).
  destruct bias_corners as (Hlo & Hlt & Hth).
  assert (T1 : 0 <= 0.01) by (vm_compute; discriminate).
  assert (T2 : 0.01 < 1) by reflexivity.
  assert (T3 : 0 <= 0.10) by (vm_compute; discriminate).
  assert (T4 : 0.10 < 1) by reflexivity.
  assert (T5 : 0.01 <= 0.10) by (vm_compute; discriminate).
  destruct (interval_inside_ok _ _ _ 0.01 0.10 VBIAS_MIN VBIAS_MAX
              Hr1 Hr2 Hr3 T1 T5 T4 ltac:(lra) ltac:(lra))
    as (p & h & p' & h' & E1 & E2 & (a1 & b1 & a2 & b2 & Ea & Eb & Hab)
        & (c1 & d1 & c2 & d2 & Ec & Ed & Hcd)).
  injection Ea as ->. injection Eb as ->.
  injection Ec as ->. injection Ed as ->.
  rewrite E1, E2. eexists. split; [reflexivity|].
  destruct (ok_sound_corners _ _ _ 0.01 VBIAS_MIN VBIAS_MAX
              Hr1 Hr2 Hr3 T1 T2 Hlo) as (x1 & x2 & x3 & x4 & F1 & Hall1).
  destruct (ok_sound_corners _ _ _ 0.10 VBIAS_MIN VBIAS_MAX
              Hr1 Hr2 Hr3 T3 T4 Hlo) as (y1 & y2 & y3 & y4 & F2 & Hall2).
  rewrite E1 in F1. rewrite E2 in F2.
  injection F1 as <- <- <- <-. injection F2 as <- <- <- <-.
  destruct (Hall1 _ _ _ VBIAS_TYP
              (within_tol_nominal _ _ Hr1 T1) (within_tol_nominal _ _ Hr2 T1)
              (within_tol_nominal _ _ Hr3 T1) Hlt Hth)
    as ((vp & Hvp & Ip) & (vh & Hvh & Ih)).
  destruct (Hall2 _ _ _ VBIAS_TYP
              (within_tol_nominal _ _ Hr1 T3) (within_tol_nominal _ _ Hr2 T3)
              (within_tol_nominal _ _ Hr3 T3) Hlt Hth)
    as ((vp' & Hvp' & Ip') & (vh' & Hvh' & Ih')).
  rewrite Hp in Hvp, Hvp'. rewrite Hh in Hvh, Hvh'.
  injection Hvp as <-. injection Hvp' as <-.
  injection Hvh as <-. injection Hvh' as <-.
  unfold ok_line_shows, inside, inside_interval. simpl. tauto.
Qed.

Lemma search_two_rows (self : Optimizer.t) (target : Q) (vfunc : vfunc_t)
    (never_exceed : option Q) (tol_for_ne : Q)
    (target_checker : option (Q -> bool)) (rows : list TwoResCandidate.t) :
  pool_positive self ->
  Optimizer.search_two self target vfunc never_exceed tol_for_ne target_checker
  = Some rows ->
  forall row, In row rows ->
    0 < TwoResCandidate.r1 row /\ 0 < TwoResCandidate.r2 row /\
    vfunc (TwoResCandidate.r1 row) (TwoResCandidate.r2 row) VBIAS_TYP
    = Some (TwoResCandidate.v_nom row).
Proof.
  intros Hpool H row Hrow.
  destruct (search_two_In _ _ _ _ _ _ _ H row Hrow)
    as (Hr1 & Hr2 & _ & _ & Hv & _).
  auto.
Qed.

Lemma search_ok_rows (self : Optimizer.t) (target_prog target_hyst : option Q)
    (rows : list ThreeResCandidate.t) :
  pool_positive self ->
  Optimizer.search_ok self target_prog target_hyst = Some rows ->
  forall row, In row rows ->
    0 < ThreeResCandidate.r1 row /\ 0 < ThreeResCandidate.r2 row /\
    0 < ThreeResCandidate.r3 row /\
    Calculator.vbat_ok_prog (ThreeResCandidate.r1 row)
      (ThreeResCandidate.r2 row) VBIAS_TYP
    = Some (ThreeResCandidate.v_prog row) /\
    Calculator.vbat_ok_hyst (ThreeResCandidate.r1 row)
      (ThreeResCandidate.r2 row) (ThreeResCandidate.r3 row) VBIAS_TYP
    = Some (ThreeResCandidate.v_hyst row).
Proof.
  intros Hpool H row Hrow.
  destruct (search_ok_In _ _ _ _ H row Hrow)
    as (Hr1 & Hr2 & Hr3 & _ & _ & Hp & Hh & _).
  auto 6.
Qed.



(** ** CLI: run does not raise *)

Lemma optimizer_of_positive (args : CLI.Args) :
  pool_positive (CLI.optimizer_of args).
Proof. apply init_pool_positive. Qed.

Lemma run_vout_returns (argv : list string) (args : CLI.Args) :
  0 <= CLI.tolerance args -> CLI.tolerance args < 1 ->
  exists out, CLI.run_vout argv args = Some out.
Proof.
  intros Ht0 Ht1. unfold CLI.run_vout.
  destruct (CLI.in_argv "--vout" argv); [|eauto].
  destruct (for_each_total (fun _ => True)
              (fun out v =>
                 rows <- Optimizer.search_two (CLI.optimizer_of args) v
                           Calculator.vout None 0.01
                           (Some (DatasheetLimits.allow_vout_target
                                    (CLI.limits_of args))) ;;
                 lines <- Formatter.print_two_section rows Calculator.vout
                            (CLI.tolerance args) ;;
                 Some (out ++ [lines]))
              (CLI.vout args)) with (s := @nil (list Formatter.two_line))
    as (t & Ht & _); [|exact I|eauto].
  intros s v _ _.
  assert (Hf : In Calculator.vout two_res_family) by (left; reflexivity).
  destruct (search_two_returns (CLI.optimizer_of args) v Calculator.vout None
              0.01 (Some (DatasheetLimits.allow_vout_target (CLI.limits_of args)))
              (optimizer_of_positive args) Hf
              ltac:(vm_compute; discriminate) ltac:(reflexivity))
    as (rows & Hrows).
  rewrite Hrows.
  destruct (print_two_lines Calculator.vout (CLI.tolerance args) rows Hf Ht0 Ht1
              (search_two_rows _ _ _ _ _ _ _ (optimizer_of_positive args) Hrows))
    as (lines & Hlines & _).
  rewrite Hlines. eauto.
Qed.

Lemma run_ov_returns (argv : list string) (args : CLI.Args) :
  0 <= CLI.tolerance args -> CLI.tolerance args < 1 ->
  (CLI.in_argv "--vbat-ov" argv = true -> CLI.vbat_ov args <> None) ->
  exists out, CLI.run_ov argv args = Some out.
Proof.
  intros Ht0 Ht1 Hov. unfold CLI.run_ov.
  destruct (CLI.in_argv "--vbat-ov" argv); [|eauto].
  destruct (CLI.vbat_ov args) as [ov|]; [|exfalso; apply Hov; reflexivity].
  assert (Hf : In Calculator.vbat_ov two_res_family)
    by (right; left; reflexivity).
  destruct (search_two_returns (CLI.optimizer_of args) ov Calculator.vbat_ov
              (if CLI.never_exceed_ov args then Some ov else None)
              0.01
              (Some (DatasheetLimits.allow_vbat_ov_target (CLI.limits_of args)))
              (optimizer_of_positive args) Hf
              ltac:(vm_compute; discriminate) ltac:(reflexivity))
    as (rows & Hrows).
  rewrite Hrows.
  destruct (print_two_lines Calculator.vbat_ov (CLI.tolerance args) rows Hf
              Ht0 Ht1
              (search_two_rows _ _ _ _ _ _ _ (optimizer_of_positive args) Hrows))
    as (lines & Hlines & _).
  rewrite Hlines. eauto.
Qed.

Lemma run_ok_returns (argv : list string) (args : CLI.Args) :
  exists out, CLI.run_ok argv args = Some out.
Proof.
  unfold CLI.run_ok.
  destruct (CLI.in_argv "--vbat-ok-prog" argv && CLI.in_argv "--vbat-ok-hyst" argv);
    [|eauto].
  destruct (search_ok_returns (CLI.optimizer_of args) (CLI.vbat_ok_prog args)
              (CLI.vbat_ok_hyst args) (optimizer_of_positive args))
    as (rows & Hrows).
  rewrite Hrows.
  destruct (print_ok_lines (CLI.tolerance args) rows
              (search_ok_rows _ _ _ _ (optimizer_of_positive args) Hrows))
    as (lines & Hlines & _).
  rewrite Hlines. eauto.
Qed.



(** The bound on the tolerance is needed: --tolerance 1 with a VOUT target
    that has candidates. *)
Lemma run_raises_at_tolerance_1 :
  CLI.run ["bq25570_calc"; "--vout"; "3.3"; "--tolerance"; "1"]%string
    (CLI.mk [3.3] None false None None 1.95 "E24" (6, 6)%Z 2.2e6 4 1)
  = CLI.Raised.
Proof. vm_compute. reflexivity. Qed.

(** ** More on the never-exceed filter *)

Lemma two_body_unfiltered (self : Optimizer.t) (target : Q) (vfunc : vfunc_t)
    (ne tol_for_ne r1 r2 : Q) (s1 s2 s1' : list TwoResCandidate.t) :
  incl s1 s2 ->
  Optimizer.two_body self target vfunc (Some ne) tol_for_ne r1 s1 r2 = Some s1' ->
  exists s2',
    Optimizer.two_body self target vfunc None tol_for_ne r1 s2 r2 = Some s2' /\
    incl s1' s2'.
Proof.
  intros Hincl. unfold Optimizer.two_body.
  destruct (Py.gtb _ _).
  { intro H. injection H as <-. eauto. }
  destruct (vfunc r1 r2 VBIAS_TYP) as [v|]; [|discriminate].
  destruct (WorstCase.two_res_bounds _ _ _ _ _) as [[vmin vmax]|]; [|discriminate].
  destruct (Py.gtb vmax (ne + 1e-12)); intro H; injection H as <-;
    eexists; (split; [reflexivity|]).
  - apply incl_appl, Hincl.
  - apply incl_app; [apply incl_appl, Hincl | apply incl_appr, incl_refl].
Qed.



(** ** Instances *)



